(** * number_parser.parser, embedded in Rocq

    A shallow embedding of [src/number_parser/parser.py]: the lexicon built by
    [LanguageData.__init__], the group accumulator [_build_number] with its two
    checks, the tokenizer, the ordinal-to-cardinal conversion, the single
    number resolvers [parse_number] / [parse_ordinal] and the sentence scanner
    [parse].

    Python values are modelled as follows.
    - [str] is a list of Unicode code points ([list N]).
    - [int] is [Z] (Python integers do not wrap).
    - [dict] with string keys is [gmap (list N) Z]; [list] is [list].
    - [None] is [option]'s [None]; truthiness is written out ([truthy]).
    - a raised exception is the [Raise] case of [result]. *)

From Stdlib Require Import ZArith NArith Ascii String List Lia.
From stdpp Require Import base option list numbers gmap pretty.

Open Scope Z_scope.

(** ** Strings *)

Abbreviation char := N.
Abbreviation pystr := (list N).

(** A source literal with characters below U+0100, as its code points. *)
Definition py (s : string) : pystr :=
  map N_of_ascii (list_ascii_of_string s).
Arguments py : simpl never.

(** [str(n)] for an [int].  CPython 3.11 and later raise [ValueError] for a
    number of more than 4300 digits; that limit is not modelled here. *)
Definition py_str (n : Z) : pystr := py (pretty n).

(** ['sep'.join(parts)] with the empty separator. *)
Definition join (parts : list pystr) : pystr := concat parts.

(** [s.startswith(p)] *)
Fixpoint startswith (p s : pystr) : bool :=
  match p, s with
  | [], _ => true
  | _ :: _, [] => false
  | a :: p', b :: s' => (a =? b)%N && startswith p' s'
  end.

(** [s.replace(old, new)] for a non-empty [old]: occurrences are found left to
    right and do not overlap.  [skip] counts the characters of a match that
    are still to be passed over. *)
Fixpoint replace_from (old new : pystr) (skip : nat) (s : pystr) : pystr :=
  match s with
  | [] => []
  | c :: s' =>
      match skip with
      | S k => replace_from old new k s'
      | O =>
          if startswith old s
          then new ++ replace_from old new (Nat.pred (length old)) s'
          else c :: replace_from old new O s'
      end
  end.

Definition str_replace (old new s : pystr) : pystr := replace_from old new O s.

(** [re.sub(pattern + '$', repl, s)] for a literal, non-empty [pattern].
    Python's [$] matches at the end of the string and also just before a
    newline that is the last character, so there is at most one match: the
    literal at the very end, or the literal followed by that final newline. *)
Fixpoint re_sub_at_end (pattern repl s : pystr) : pystr :=
  match s with
  | [] => []
  | c :: s' =>
      if startswith pattern s &&
         (bool_decide (drop (length pattern) s = []) ||
          bool_decide (drop (length pattern) s = [10%N]))
      then repl ++ drop (length pattern) s
      else c :: re_sub_at_end pattern repl s'
  end.

(** ** The Unicode character database

    [str.lower], [str.isspace], [str.isnumeric], [str.split], [int],
    [unicodedata] and the class [\w] of [re] read CPython's Unicode tables.
    The embedding takes them as an interface; every general theorem below
    holds for any tables. *)
Class Unicode := {
  (** [s.lower()] *)
  str_lower : pystr → pystr;
  (** [unicodedata.normalize('NFD', s)] *)
  normalize_NFD : pystr → pystr;
  (** [unicodedata.category(c) == 'Mn'] *)
  category_Mn : char → bool;
  (** [c.isspace()] for one character *)
  char_isspace : char → bool;
  (** [c.isnumeric()] for one character *)
  char_isnumeric : char → bool;
  (** [re.match(r'\w', c)] for one character *)
  char_isword : char → bool;
  (** [int(s)]; [None] when CPython raises [ValueError] *)
  py_int : pystr → option Z
}.

(** ** Results of calls that may raise *)

Inductive exn :=
  (** [ValueError(f'"{language}" is not a supported language')] *)
  | UnsupportedLanguage (language : pystr)
  (** the [ValueError] of [int(s)] *)
  | InvalidLiteral (s : pystr)
  (** [import_module] finds no data module for the language *)
  | ModuleNotFoundError (language : pystr)
  (** [current_number[-1]] on an empty list *)
  | IndexError.

Inductive result (A : Type) :=
  | Ok (a : A)
  | Raise (e : exn).
Arguments Ok {A} a.
Arguments Raise {A} e.

#[global] Instance result_bind : MBind result := λ A B f m,
  match m with
  | Ok a => f a
  | Raise e => Raise e
  end.

(** ** Language data *)

(** The [info] dictionary of a module [number_parser.data.<language>]. *)
Record language_info := {
  UNIT_NUMBERS : list (pystr * Z);
  DIRECT_NUMBERS : list (pystr * Z);
  TENS : list (pystr * Z);
  HUNDREDS : list (pystr * Z);
  BIG_POWERS_OF_TEN : list (pystr * Z);
  SKIP_TOKENS : list pystr;
  USE_LONG_SCALE : bool
}.

Record LanguageData := {
  unit_numbers : gmap pystr Z;
  direct_numbers : gmap pystr Z;
  tens : gmap pystr Z;
  hundreds : gmap pystr Z;
  big_powers_of_ten : gmap pystr Z;
  skip_tokens : list pystr;
  all_numbers : gmap pystr Z;
  unit_and_direct_numbers : gmap pystr Z;
  maximum_group_value : Z
}.

Definition SUPPORTED_LANGUAGES : list pystr := [py "en"; py "es"; py "hi"; py "ru"].
Definition RE_BUG_LANGUAGES : list pystr := [py "hi"].

(** [key in d] *)
Definition in_dict (key : pystr) (d : gmap pystr Z) : bool :=
  bool_decide (is_Some (d !! key)).

(** [key in d] where [key] may be [None], which is in no dictionary. *)
Definition opt_in_dict (key : option pystr) (d : gmap pystr Z) : bool :=
  match key with
  | Some k => in_dict k d
  | None => false
  end.

(** [d[key]], read only where [key in d] has been tested. *)
Definition getitem (d : gmap pystr Z) (key : pystr) : Z := default 0 (d !! key).

(** [{**d1, **d2}]: the entries of [d2] win. *)
Definition dict_merge (d1 d2 : gmap pystr Z) : gmap pystr Z := d2 ∪ d1.

(** [token in tokens] for a list of strings *)
Definition in_list (token : pystr) (tokens : list pystr) : bool :=
  bool_decide (token ∈ tokens).

Section Parser.

(** The Unicode tables, and the [info] of each module under
    [number_parser/data/] ([None]: no such module). *)
Context `{Unicode} (data : pystr → option language_info).

(** [s.isspace()]: at least one character, all of them whitespace. *)
Definition isspace (s : pystr) : bool :=
  negb (bool_decide (s = [])) && forallb char_isspace s.

(** [s.isnumeric()] *)
Definition isnumeric (s : pystr) : bool :=
  negb (bool_decide (s = [])) && forallb char_isnumeric s.

(** [s.split()]: the maximal runs of non-whitespace characters. *)
Fixpoint split_from (word s : pystr) : list pystr :=
  match s with
  | [] => if bool_decide (word = []) then [] else [word]
  | c :: s' =>
      if char_isspace c
      then (if bool_decide (word = []) then split_from [] s'
            else word :: split_from [] s')
      else split_from (word ++ [c]) s'
  end.

Definition str_split (s : pystr) : list pystr := split_from [] s.

(** [re.split(r'(\W)', s)]: the runs of word characters (empty runs too),
    with each separating non-word character kept as an element of its own. *)
Fixpoint re_split_W (s : pystr) : list pystr :=
  match s with
  | [] => [[]]
  | c :: s' =>
      if char_isword c
      then match re_split_W s' with
           | word :: rest => (c :: word) :: rest
           | [] => [[c]]
           end
      else [] :: [c] :: re_split_W s'
  end.

Definition _strip_accents (word : pystr) : pystr :=
  List.filter (λ c, negb (category_Mn c)) (normalize_NFD word).

Definition _normalize_tokens (token_list : list pystr) : list pystr :=
  map (λ token, _strip_accents (str_lower token)) token_list.

(** The comprehension inserts in the order of [items()]: of two words with
    the same accent-free form the later one stays. *)
Definition _normalize_dict (lang_dict : list (pystr * Z)) : gmap pystr Z :=
  foldl (λ d item, <[_strip_accents item.1 := item.2]> d) ∅ lang_dict.

(** The body of [LanguageData.__init__] after the module is imported. *)
Definition load_language_info (language_info : language_info) : LanguageData :=
  let unit_numbers := _normalize_dict (UNIT_NUMBERS language_info) in
  let direct_numbers := _normalize_dict (DIRECT_NUMBERS language_info) in
  let tens := _normalize_dict (TENS language_info) in
  let hundreds := _normalize_dict (HUNDREDS language_info) in
  let big_powers_of_ten := _normalize_dict (BIG_POWERS_OF_TEN language_info) in
  {| unit_numbers := unit_numbers;
     direct_numbers := direct_numbers;
     tens := tens;
     hundreds := hundreds;
     big_powers_of_ten := big_powers_of_ten;
     skip_tokens := SKIP_TOKENS language_info;
     all_numbers :=
       dict_merge (dict_merge (dict_merge (dict_merge unit_numbers direct_numbers)
                                          tens) hundreds) big_powers_of_ten;
     unit_and_direct_numbers := dict_merge unit_numbers direct_numbers;
     maximum_group_value := if USE_LONG_SCALE language_info then 10000 else 100 |}.

(** [LanguageData(language)] *)
Definition new_LanguageData (language : pystr) : result LanguageData :=
  if negb (in_list language SUPPORTED_LANGUAGES)
  then Raise (UnsupportedLanguage language)
  else match data language with
       | Some language_info => Ok (load_language_info language_info)
       | None => Raise (ModuleNotFoundError language)
       end.

(** ** The group accumulator *)

Definition _check_validity (current_token : pystr) (previous_token : option pystr)
    (previous_power_of_10 : option Z) (total_value current_grp_value : Z)
    (lang_data : LanguageData) : bool :=
  if in_dict current_token (unit_and_direct_numbers lang_data)
     && opt_in_dict previous_token (unit_and_direct_numbers lang_data)
  then false
  else if in_dict current_token (direct_numbers lang_data)
          && opt_in_dict previous_token (tens lang_data)
  then false
  else if in_dict current_token (tens lang_data)
  then
    if opt_in_dict previous_token (tens lang_data)
       || opt_in_dict previous_token (unit_and_direct_numbers lang_data)
    then false else true
  else if in_dict current_token (hundreds lang_data)
  then
    if negb (opt_in_dict previous_token (big_powers_of_ten lang_data))
       && bool_decide (previous_token ≠ None)
    then false else true
  else if in_dict current_token (big_powers_of_ten lang_data)
  then
    let power_of_ten := getitem (big_powers_of_ten lang_data) current_token in
    if power_of_ten <? current_grp_value then false
    else if negb (total_value =? 0)
            && match previous_power_of_10 with
               | Some previous => power_of_ten >=? previous
               | None => false
               end
    then false else true
  else true.

Definition _check_large_multiplier (current_token : pystr)
    (total_value current_grp_value : Z) (lang_data : LanguageData) : bool :=
  let combined_value := total_value + current_grp_value in
  if combined_value =? 0 then false
  else if in_dict current_token (big_powers_of_ten lang_data)
  then
    let large_value := getitem (big_powers_of_ten lang_data) current_token in
    if (large_value >? combined_value) && negb (large_value =? 100)
    then true else false
  else false.

(** The local variables of [_build_number]. *)
Record builder := {
  total_value : Z;
  current_grp_value : Z;
  previous_token : option pystr;
  previous_power_of_10 : option Z;
  value_list : list pystr;
  used_skip_tokens : list pystr
}.

Definition builder_start : builder :=
  {| total_value := 0; current_grp_value := 0; previous_token := None;
     previous_power_of_10 := None; value_list := []; used_skip_tokens := [] |}.

(** Lines 92-98: the token multiplies everything built so far. *)
Definition large_multiplier_step (lang_data : LanguageData) (b : builder)
    (token : pystr) : builder :=
  let combined_value := total_value b + current_grp_value b in
  {| total_value := combined_value * getitem (big_powers_of_ten lang_data) token;
     current_grp_value := 0;
     previous_token := Some token;
     previous_power_of_10 := Some (getitem (big_powers_of_ten lang_data) token);
     value_list := value_list b;
     used_skip_tokens := [] |}.

(** Lines 102-108: the number built so far is closed and appended, followed
    by the skip words seen since the last numeral. *)
Definition close_number (b : builder) : builder :=
  {| total_value := 0;
     current_grp_value := 0;
     previous_token := previous_token b;
     previous_power_of_10 := None;
     value_list :=
       (value_list b ++ [py_str (total_value b + current_grp_value b)])
       ++ used_skip_tokens b;
     used_skip_tokens := used_skip_tokens b |}.

(** Lines 110-131: the token is added to the open group by category. *)
Definition accumulate (lang_data : LanguageData) (b : builder) (token : pystr) : builder :=
  let b' :=
    if in_dict token (unit_and_direct_numbers lang_data)
    then {| total_value := total_value b;
            current_grp_value :=
              current_grp_value b + getitem (unit_and_direct_numbers lang_data) token;
            previous_token := previous_token b;
            previous_power_of_10 := previous_power_of_10 b;
            value_list := value_list b;
            used_skip_tokens := used_skip_tokens b |}
    else if in_dict token (tens lang_data)
    then {| total_value := total_value b;
            current_grp_value := current_grp_value b + getitem (tens lang_data) token;
            previous_token := previous_token b;
            previous_power_of_10 := previous_power_of_10 b;
            value_list := value_list b;
            used_skip_tokens := used_skip_tokens b |}
    else if in_dict token (hundreds lang_data)
    then {| total_value := total_value b;
            current_grp_value := current_grp_value b + getitem (hundreds lang_data) token;
            previous_token := previous_token b;
            previous_power_of_10 := previous_power_of_10 b;
            value_list := value_list b;
            used_skip_tokens := used_skip_tokens b |}
    else if in_dict token (big_powers_of_ten lang_data)
    then
      let power_of_ten := getitem (big_powers_of_ten lang_data) token in
      let grp := if current_grp_value b =? 0 then 1 else current_grp_value b in
      let grp := grp * power_of_ten in
      if power_of_ten >? maximum_group_value lang_data
      then {| total_value := total_value b + grp;
              current_grp_value := 0;
              previous_token := previous_token b;
              previous_power_of_10 := Some power_of_ten;
              value_list := value_list b;
              used_skip_tokens := used_skip_tokens b |}
      else {| total_value := total_value b;
              current_grp_value := grp;
              previous_token := previous_token b;
              previous_power_of_10 := previous_power_of_10 b;
              value_list := value_list b;
              used_skip_tokens := used_skip_tokens b |}
    else b in
  {| total_value := total_value b';
     current_grp_value := current_grp_value b';
     previous_token := Some token;
     previous_power_of_10 := previous_power_of_10 b';
     value_list := value_list b';
     used_skip_tokens := [] |}.

(** Lines 84-88: whitespace, the empty token and skip words are passed over
    before any check is made. *)
Definition passed_over (lang_data : LanguageData) (token : pystr) : bool :=
  isspace token || bool_decide (token = []) || in_list token (skip_tokens lang_data).

(** One turn of the loop of [_build_number]. *)
Definition build_step (lang_data : LanguageData) (b : builder) (token : pystr) : builder :=
  if isspace token || bool_decide (token = []) then b
  else if in_list token (skip_tokens lang_data)
  then {| total_value := total_value b;
          current_grp_value := current_grp_value b;
          previous_token := previous_token b;
          previous_power_of_10 := previous_power_of_10 b;
          value_list := value_list b;
          used_skip_tokens := used_skip_tokens b ++ [token] |}
  else if _check_large_multiplier token (total_value b) (current_grp_value b) lang_data
  then large_multiplier_step lang_data b token
  else
    let valid := _check_validity token (previous_token b) (previous_power_of_10 b)
                   (total_value b) (current_grp_value b) lang_data in
    accumulate lang_data (if negb valid then close_number b else b) token.

Definition _build_number (token_list : list pystr) (lang_data : LanguageData) : list pystr :=
  let b := foldl (build_step lang_data) builder_start token_list in
  value_list b ++ [py_str (total_value b + current_grp_value b)].

(** ** Tokens *)

Definition _tokenize (input_string language : pystr) : list pystr :=
  let input_string := str_replace [173%N] [] input_string in
  if in_list language RE_BUG_LANGUAGES then str_split input_string
  else re_split_W input_string.

Definition CARDINAL_DIRECT_NUMBERS : list (pystr * pystr) :=
  [(py "first", py "one"); (py "second", py "two"); (py "third", py "three");
   (py "fifth", py "five"); (py "eighth", py "eight"); (py "ninth", py "nine");
   (py "twelfth", py "twelve")].

Definition _apply_cardinal_conversion (input_string language : pystr) : pystr :=
  let input_string := str_lower input_string in
  let input_string :=
    foldl (λ s item, str_replace item.1 item.2 s) input_string CARDINAL_DIRECT_NUMBERS in
  let input_string := re_sub_at_end (py "ieth") (py "y") input_string in
  let input_string := re_sub_at_end (py "th") [] input_string in
  input_string.

Definition _is_cardinal_token (token language : pystr) : result bool :=
  lang_dict ← new_LanguageData language;
  Ok (in_dict token (all_numbers lang_dict)).

Definition _is_ordinal_token (token language : pystr) : result bool :=
  let token := _apply_cardinal_conversion token language in
  _is_cardinal_token token language.

Definition _is_skip_token (token language : pystr) : result bool :=
  lang_dict ← new_LanguageData language;
  Ok (in_list token (skip_tokens lang_dict)).

(** [a or b] evaluates [b] only when [a] is false. *)
Definition is_number_token (token language : pystr) : result bool :=
  _is_cardinal_token token language ≫= λ cardinal : bool,
  if cardinal then Ok true else _is_ordinal_token token language.

(** ** One number *)

(** The loop of lines 205-210 from position [index] on: [true] when it runs to
    its end, [false] when it reaches [return None]. *)
Fixpoint tokens_accepted (lang_data : LanguageData) (index : nat)
    (normalized_tokens : list pystr) : bool :=
  match normalized_tokens with
  | [] => true
  | token :: rest =>
      if in_dict token (all_numbers lang_data) || isspace token
         || (length token =? 0)%nat
      then tokens_accepted lang_data (S index) rest
      else if in_list token (skip_tokens lang_data) && negb (index =? 0)%nat
      then tokens_accepted lang_data (S index) rest
      else false
  end.

Definition parse_number (input_string language : pystr) : result (option Z) :=
  lang_data ← new_LanguageData language;
  if isnumeric input_string
  then match py_int input_string with
       | Some n => Ok (Some n)
       | None => Raise (InvalidLiteral input_string)
       end
  else
    let tokens := _tokenize input_string language in
    let normalized_tokens := _normalize_tokens tokens in
    if negb (tokens_accepted lang_data 0 normalized_tokens) then Ok None
    else
      let number_built := _build_number normalized_tokens lang_data in
      match number_built with
      | [segment] =>
          match py_int segment with
          | Some n => Ok (Some n)
          | None => Raise (InvalidLiteral segment)
          end
      | _ => Ok None
      end.

Definition parse_ordinal (input_string language : pystr) : result (option Z) :=
  let input_string := _apply_cardinal_conversion input_string language in
  parse_number input_string language.

(** ** Sentences *)

(** Truth value of an [int] or [None]. *)
Definition truthy (number : option Z) : bool :=
  match number with
  | Some n => negb (n =? 0)
  | None => false
  end.

(** Lines 278-280: the text of a run, each token lower-cased and stripped of
    its accents. *)
Definition run_text (current_number : list pystr) : pystr :=
  join (map _strip_accents (map str_lower current_number)).

(** [str(number) if number else current_number_str] *)
Definition number_or_text (number : option Z) (current_number_str : pystr) : pystr :=
  match number with
  | Some n => if truthy number then py_str n else current_number_str
  | None => current_number_str
  end.

Definition _parse_number_tokens (current_number : list pystr) (language : pystr)
    : result pystr :=
  let current_number_str := run_text current_number in
  number ← parse_number current_number_str language;
  number ← (if negb (truthy number)
            then parse_ordinal current_number_str (py "en")
            else Ok number);
  Ok (number_or_text number current_number_str).

(** The local variables of [parse]. *)
Record scanner := {
  sentence : list pystr;
  current_number : list pystr;
  building_number : bool
}.

Definition scanner_start : scanner :=
  {| sentence := []; current_number := []; building_number := false |}.

(** The scanner outside a run, with [pieces] written so far. *)
Definition idle_with (pieces : list pystr) : scanner :=
  {| sentence := pieces; current_number := []; building_number := false |}.

(** One turn of the loop of [parse]. *)
Definition parse_step (language : pystr) (sc : scanner) (token : pystr) : result scanner :=
  let normalized_token := _strip_accents (str_lower token) in
  is_number_token normalized_token language ≫= λ is_number : bool,
  if negb (building_number sc)
  then
    if is_number
    then Ok {| sentence := sentence sc;
                 current_number := current_number sc ++ [token];
                 building_number := true |}
    else Ok {| sentence := sentence sc ++ [token];
                 current_number := current_number sc;
                 building_number := false |}
  else
    (if is_number || isspace token || bool_decide (token = [])
     then Ok true
     else _is_skip_token token language) ≫= λ extends : bool,
    if extends
    then Ok {| sentence := sentence sc;
                 current_number := current_number sc ++ [token];
                 building_number := true |}
    else
      number ← _parse_number_tokens (current_number sc) language;
      match last (current_number sc) with
      | None => Raise IndexError
      | Some final =>
          let sentence1 := sentence sc ++ [number] in
          let sentence2 := if isspace final then sentence1 ++ [final] else sentence1 in
          Ok {| sentence := sentence2 ++ [token];
                  current_number := [];
                  building_number := false |}
      end.

Fixpoint scan (language : pystr) (sc : scanner) (tokens : list pystr) : result scanner :=
  match tokens with
  | [] => Ok sc
  | token :: rest => sc' ← parse_step language sc token; scan language sc' rest
  end.

(** Lines 262-266: after the loop a run still open is resolved, and the
    pieces are joined. *)
Definition parse_finish (language : pystr) (sc : scanner) : result pystr :=
  if building_number sc
  then number ← _parse_number_tokens (current_number sc) language;
       Ok (join (sentence sc ++ [number]))
  else Ok (join (sentence sc)).

(** [_tokenize] returns a list, so the [tokens is None] exit never runs. *)
Definition parse (input_string language : pystr) : result pystr :=
  let tokens := _tokenize input_string language in
  sc ← scan language scanner_start tokens;
  parse_finish language sc.

End Parser.

(** ** Tables for the examples *)

(** CPython's tables on Basic Latin (U+0000..U+007F).  A code point above
    that block is given the properties of U+00AD SOFT HYPHEN, the only such
    character the examples use: no case, no decomposition, not a mark, not a
    space, not numeric and not a word character. *)
Module BasicLatin.

Definition between (lo hi c : N) : bool := ((lo <=? c) && (c <=? hi))%N.

Definition lower (c : N) : N := if between 65 90 c then (c + 32)%N else c.
Definition space (c : N) : bool := between 9 13 c || between 28 32 c.
Definition digit (c : N) : bool := between 48 57 c.
Definition word (c : N) : bool :=
  digit c || between 65 90 c || between 97 122 c || (c =? 95)%N.

(** The digits of a base-10 literal, where single underscores may stand
    between digits. *)
Fixpoint digits (value : Z) (after_digit : bool) (s : pystr) : option Z :=
  match s with
  | [] => if after_digit then Some value else None
  | c :: s' =>
      if digit c then digits (10 * value + Z.of_N (c - 48)) true s'
      else if (c =? 95)%N && after_digit then digits value false s'
      else None
  end.

Fixpoint lstrip (s : pystr) : pystr :=
  match s with
  | c :: s' => if space c then lstrip s' else s
  | [] => []
  end.

(** [sys.int_max_str_digits] at its default: CPython 3.11 and later refuse a
    decimal literal of more digits with a [ValueError]. *)
Definition max_str_digits : nat := 4300.

(** [int(s)]: surrounding whitespace, an optional sign, the digits. *)
Definition int (s : pystr) : option Z :=
  let literal := rev (lstrip (rev (lstrip s))) in
  if (max_str_digits <? length (List.filter digit literal))%nat then None
  else
    match literal with
    | 45%N :: s' => Z.opp <$> digits 0 false s'
    | 43%N :: s' => digits 0 false s'
    | s' => digits 0 false s'
    end.

#[export] Instance tables : Unicode := {|
  str_lower := map lower;
  normalize_NFD := λ s, s;
  category_Mn := λ _, false;
  char_isspace := space;
  char_isnumeric := digit;
  char_isword := word;
  py_int := int
|}.

End BasicLatin.

(** Modelled from the spec: [number_parser/data/en.py] is not among the
    sources.  The table holds the English number words with the values and
    categories the specification's examples rely on: "hundred" is a big power
    of ten (the large-multiplier rule singles out the scale 100), "and" is the
    skip word, and the scale is short. *)
Definition en_info : language_info := {|
  UNIT_NUMBERS :=
    [(py "zero", 0); (py "one", 1); (py "two", 2); (py "three", 3); (py "four", 4);
     (py "five", 5); (py "six", 6); (py "seven", 7); (py "eight", 8); (py "nine", 9)];
  DIRECT_NUMBERS :=
    [(py "ten", 10); (py "eleven", 11); (py "twelve", 12); (py "thirteen", 13);
     (py "fourteen", 14); (py "fifteen", 15); (py "sixteen", 16);
     (py "seventeen", 17); (py "eighteen", 18); (py "nineteen", 19)];
  TENS :=
    [(py "twenty", 20); (py "thirty", 30); (py "forty", 40); (py "fifty", 50);
     (py "sixty", 60); (py "seventy", 70); (py "eighty", 80); (py "ninety", 90)];
  HUNDREDS := [];
  BIG_POWERS_OF_TEN :=
    [(py "hundred", 100); (py "thousand", 1000); (py "million", 1000000);
     (py "billion", 1000000000); (py "trillion", 1000000000000);
     (py "quadrillion", 1000000000000000)];
  SKIP_TOKENS := [py "and"];
  USE_LONG_SCALE := false
|}.

(** The data package with its English module only. *)
Definition en_data (language : pystr) : option language_info :=
  if bool_decide (language = py "en") then Some en_info else None.

(** [LanguageData('en')] over these tables. *)
Definition en_lang_data : LanguageData :=
  load_language_info (H := BasicLatin.tables) en_info.

(** The entry points on an English text over these tables. *)
Definition en_parse_number (text : string) : result (option Z) :=
  parse_number (H := BasicLatin.tables) en_data (py text) (py "en").

Definition en_parse_ordinal (text : string) : result (option Z) :=
  parse_ordinal (H := BasicLatin.tables) en_data (py text) (py "en").

Definition en_parse (text : string) : result pystr :=
  parse (H := BasicLatin.tables) en_data (py text) (py "en").

Definition en_build_number (tokens : list string) : list pystr :=
  _build_number (H := BasicLatin.tables) (map py tokens) en_lang_data.

(** The accumulator after "two hundred": an open group of 200. *)
Definition two_hundred : builder :=
  {| total_value := 0; current_grp_value := 200;
     previous_token := Some (py "hundred"); previous_power_of_10 := None;
     value_list := []; used_skip_tokens := [] |}.

(** The accumulator after "twenty two". *)
Definition twenty_two : builder :=
  {| total_value := 0; current_grp_value := 22;
     previous_token := Some (py "two"); previous_power_of_10 := None;
     value_list := []; used_skip_tokens := [] |}.

(** ** The conversion of ordinals, as the specification words it

    Lower-case the text, replace every occurrence of the irregular words,
    rewrite a trailing "ieth" to "y", strip a trailing "th" -- where trailing
    means that the text ends with the letters. *)

(** [s.endswith(suffix)] *)
Definition endswith (suffix s : pystr) : bool := bool_decide (suffix `suffix_of` s).

Definition rewrite_trailing (pattern repl s : pystr) : pystr :=
  if endswith pattern s
  then take (length s - length pattern) s ++ repl
  else s.

Definition replace_irregular_words (s : pystr) : pystr :=
  let s := str_replace (py "first") (py "one") s in
  let s := str_replace (py "second") (py "two") s in
  let s := str_replace (py "third") (py "three") s in
  let s := str_replace (py "fifth") (py "five") s in
  let s := str_replace (py "eighth") (py "eight") s in
  let s := str_replace (py "ninth") (py "nine") s in
  let s := str_replace (py "twelfth") (py "twelve") s in
  s.

Definition spec_cardinal_conversion `{Unicode} (input_string : pystr) : pystr :=
  rewrite_trailing (py "th") []
    (rewrite_trailing (py "ieth") (py "y")
       (replace_irregular_words (str_lower input_string))).

(** The scanner after it has read "twenty three" and a space. *)
Definition reading_twenty_three : scanner :=
  {| sentence := [py "I"; py " "];
     current_number := [py "Twenty"; py " "; py "three"; py " "];
     building_number := true |}.

(** ** Notions for the further properties *)

(** Lines 84-85: a token that is whitespace or empty. *)
Definition is_blank `{Unicode} (token : pystr) : bool :=
  isspace token || bool_decide (token = []).

(** The value that lines 110-124 read for a word: that of the first table,
    in the order of the [if] chain, that holds it; 0 for a word of no table. *)
Definition word_value (lang_data : LanguageData) (token : pystr) : Z :=
  if in_dict token (unit_and_direct_numbers lang_data)
  then getitem (unit_and_direct_numbers lang_data) token
  else if in_dict token (tens lang_data)
  then getitem (tens lang_data) token
  else if in_dict token (hundreds lang_data)
  then getitem (hundreds lang_data) token
  else if in_dict token (big_powers_of_ten lang_data)
  then getitem (big_powers_of_ten lang_data) token
  else 0.

(** No table that the accumulator reads holds a negative value. *)
Definition nonnegative_values (lang_data : LanguageData) : Prop :=
  map_Forall (λ _ v, 0 ≤ v) (unit_and_direct_numbers lang_data)
  ∧ map_Forall (λ _ v, 0 ≤ v) (tens lang_data)
  ∧ map_Forall (λ _ v, 0 ≤ v) (hundreds lang_data)
  ∧ map_Forall (λ _ v, 0 ≤ v) (big_powers_of_ten lang_data).

(** The local variables of [_build_number] after the loop has read [tokens]. *)
Definition builder_after `{Unicode} (lang_data : LanguageData)
    (tokens : list pystr) : builder :=
  foldl (build_step lang_data) builder_start tokens.

(** Two states of the loop of [_build_number] that agree on everything the
    checks read, and on whether a segment has been appended yet. *)
Definition same_progress (b1 b2 : builder) : Prop :=
  total_value b1 = total_value b2
  ∧ current_grp_value b1 = current_grp_value b2
  ∧ previous_token b1 = previous_token b2
  ∧ previous_power_of_10 b1 = previous_power_of_10 b2
  ∧ (value_list b1 = [] ↔ value_list b2 = []).

(** The scanner holds a token whenever it is inside a run. *)
Definition run_is_open (sc : scanner) : Prop :=
  building_number sc = true → current_number sc ≠ [].

(** * Properties *)

Section Accumulator.

Context `{Unicode}.
Implicit Types (lang_data : LanguageData) (b : builder) (token : pystr).

Lemma in_dict_Some (d : gmap pystr Z) (key : pystr) (v : Z) :
  d !! key = Some v → in_dict key d = true ∧ getitem d key = v.
Proof.
  intros Hkey. unfold in_dict, getitem. rewrite Hkey. split; [|done].
  apply bool_decide_eq_true. by exists v.
Qed.

Lemma in_dict_None (d : gmap pystr Z) (key : pystr) :
  d !! key = None → in_dict key d = false.
Proof.
  intros Hkey. unfold in_dict. rewrite Hkey.
  apply bool_decide_eq_false. by intros [v Hv].
Qed.

Lemma passed_over_false lang_data token :
  passed_over lang_data token = false →
  isspace token || bool_decide (token = []) = false
  ∧ in_list token (skip_tokens lang_data) = false.
Proof. unfold passed_over. intros Hp. by apply orb_false_iff in Hp. Qed.

(** A token that is examined goes through the large-multiplier test first
    and through the validity test otherwise. *)
Lemma build_step_examined lang_data b token :
  passed_over lang_data token = false →
  build_step lang_data b token =
    if _check_large_multiplier token (total_value b) (current_grp_value b) lang_data
    then large_multiplier_step lang_data b token
    else accumulate lang_data
           (if _check_validity token (previous_token b) (previous_power_of_10 b)
                 (total_value b) (current_grp_value b) lang_data
            then b else close_number b) token.
Proof.
  intros [Hws Hskip]%passed_over_false. unfold build_step.
  rewrite Hws, Hskip.
  destruct (_check_large_multiplier _ _ _ _); [done|].
  by destruct (_check_validity _ _ _ _ _ _).
Qed.

Lemma check_large_multiplier_true lang_data token (total grp S : Z) :
  big_powers_of_ten lang_data !! token = Some S →
  total + grp ≠ 0 → S > total + grp → S ≠ 100 →
  _check_large_multiplier token total grp lang_data = true.
Proof.
  intros [Hin Hget]%in_dict_Some Hne Hgt H100. unfold _check_large_multiplier.
  rewrite Hin, Hget.
  destruct (Z.eqb_spec (total + grp) 0) as [|_]; [done|].
  destruct (Z.gtb_spec S (total + grp)); [|lia].
  by destruct (Z.eqb_spec S 100).
Qed.

Lemma check_large_multiplier_not_power lang_data token (total grp : Z) :
  big_powers_of_ten lang_data !! token = None →
  _check_large_multiplier token total grp lang_data = false.
Proof.
  intros Hin%in_dict_None. unfold _check_large_multiplier. rewrite Hin.
  by destruct (total + grp =? 0).
Qed.

(** The validity test rejects a ten word after a ten word or after a unit or
    direct word, whichever of its branches is taken. *)
Lemma check_validity_ten lang_data token previous ppt (total grp : Z) :
  in_dict token (tens lang_data) = true →
  in_dict previous (tens lang_data) = true
  ∨ in_dict previous (unit_and_direct_numbers lang_data) = true →
  _check_validity token (Some previous) ppt total grp lang_data = false.
Proof.
  intros Hten Hprev. unfold _check_validity. cbn [opt_in_dict]. rewrite Hten.
  destruct (in_dict token (unit_and_direct_numbers lang_data)
            && in_dict previous (unit_and_direct_numbers lang_data)); [done|].
  destruct (in_dict token (direct_numbers lang_data)
            && in_dict previous (tens lang_data)); [done|].
  by destruct Hprev as [-> | ->]; rewrite ?orb_true_r.
Qed.

End Accumulator.

Section Scanner.

Context `{Unicode} (data : pystr → option language_info).
Implicit Types (lang_data : LanguageData) (sc : scanner) (token language : pystr).

Lemma new_LanguageData_unsupported language :
  language ∉ SUPPORTED_LANGUAGES →
  new_LanguageData data language = Raise (UnsupportedLanguage language).
Proof.
  intros Hnot. unfold new_LanguageData, in_list.
  by rewrite bool_decide_eq_false_2.
Qed.

(** A language of [RE_BUG_LANGUAGES] is a supported one. *)
Lemma re_bug_supported language :
  language ∈ RE_BUG_LANGUAGES → language ∈ SUPPORTED_LANGUAGES.
Proof.
  unfold RE_BUG_LANGUAGES, SUPPORTED_LANGUAGES.
  intros ->%list_elem_of_singleton. set_solver.
Qed.

(** ** The tokenizer *)

Lemma re_split_W_cons (s : pystr) : ∃ first rest, re_split_W s = first :: rest.
Proof.
  destruct s as [|c s]; cbn; [by eauto|].
  destruct (char_isword c); [|by eauto].
  destruct (re_split_W s); eauto.
Qed.

(** Joining the pieces of [re.split(r'(\W)', s)] gives [s] back. *)
Lemma join_re_split_W (s : pystr) : join (re_split_W s) = s.
Proof.
  unfold join. induction s as [|c s IH]; cbn; [done|].
  destruct (char_isword c); cbn.
  - destruct (re_split_W s) as [|word rest]; cbn in *; by rewrite <- IH.
  - by rewrite IH.
Qed.

(** Replacing a one-character string by the empty one deletes every
    occurrence of the character and nothing else. *)
Lemma str_replace_delete (c : N) (s : pystr) :
  str_replace [c] [] s = List.filter (λ x, negb (c =? x)%N) s.
Proof.
  unfold str_replace. induction s as [|x s IH]; cbn; [done|].
  rewrite andb_true_r. destruct (c =? x)%N; cbn; by rewrite IH.
Qed.

Lemma str_replace_absent (c : N) (s : pystr) :
  c ∉ s → str_replace [c] [] s = s.
Proof.
  rewrite str_replace_delete. induction s as [|x s IH]; cbn; [done|].
  intros Hnot. apply not_elem_of_cons in Hnot as [Hne Hnot].
  destruct (N.eqb_spec c x); [done|]. cbn. by rewrite IH.
Qed.

(** ** The scanner on text without numerals *)

Lemma scan_no_numeral language (tokens pieces : list pystr) :
  (∀ token, token ∈ tokens →
     is_number_token data (_strip_accents (str_lower token)) language = Ok false) →
  scan data language (idle_with pieces) tokens = Ok (idle_with (pieces ++ tokens)).
Proof.
  revert pieces. induction tokens as [|token tokens IH]; intros pieces Hnone; cbn.
  - by rewrite app_nil_r.
  - unfold parse_step. rewrite Hnone by set_solver. cbn.
    fold (idle_with (pieces ++ [token])). rewrite IH by set_solver.
    by rewrite <- app_assoc.
Qed.

Lemma parse_no_numeral language (s : pystr) :
  (∀ token, token ∈ _tokenize s language →
     is_number_token data (_strip_accents (str_lower token)) language = Ok false) →
  parse data s language = Ok (join (_tokenize s language)).
Proof.
  intros Hnone. unfold parse.
  change scanner_start with (idle_with []). by rewrite scan_no_numeral.
Qed.

(** ** Unsupported languages *)

Lemma is_number_token_unsupported language token :
  language ∉ SUPPORTED_LANGUAGES →
  is_number_token data token language = Raise (UnsupportedLanguage language).
Proof.
  intros Hnot. unfold is_number_token, _is_cardinal_token.
  by rewrite new_LanguageData_unsupported.
Qed.

Lemma parse_unsupported language (s : pystr) :
  language ∉ SUPPORTED_LANGUAGES →
  parse data s language = Raise (UnsupportedLanguage language).
Proof.
  intros Hnot. unfold parse, _tokenize, in_list.
  case_bool_decide as Hbug; [by apply re_bug_supported in Hbug|].
  destruct (re_split_W_cons (str_replace [173%N] [] s)) as (first & rest & ->).
  cbn. unfold parse_step. by rewrite is_number_token_unsupported.
Qed.

(** ** The check before the accumulator *)

(** The offending token of the tail is the offending token of the list, one
    position further, when the head is let through. *)
Ltac shift_offender IH :=
  rewrite IH; split;
  [ intros (i & t & Hi & Hn & Hs & He & Hk); exists (S i), t;
    repeat split; auto; destruct Hk; [auto | right; lia]
  | intros ([|i] & t & Hi & Hn & Hs & He & Hk); cbn in Hi;
    [ simplify_eq; first [congruence | destruct Hk; [congruence | lia]]
    | exists i, t; repeat split; auto; destruct Hk; [auto | lia] ] ].

Lemma tokens_accepted_false lang_data (index : nat) (tokens : list pystr) :
  tokens_accepted lang_data index tokens = false ↔
  ∃ (i : nat) token,
    tokens !! i = Some token
    ∧ in_dict token (all_numbers lang_data) = false
    ∧ isspace token = false
    ∧ token ≠ []
    ∧ (in_list token (skip_tokens lang_data) = false ∨ (index + i = 0)%nat).
Proof.
  revert index. induction tokens as [|token tokens IH]; intros index.
  - cbn. split; [done|]. by intros (i & t & Hi & _).
  - cbn [tokens_accepted].
    assert ((length token =? 0)%nat = bool_decide (token = [])) as ->.
    { by destruct token. }
    destruct (in_dict token (all_numbers lang_data)) eqn:Hnum; cbn [orb].
    { shift_offender IH. }
    destruct (isspace token) eqn:Hws; cbn [orb].
    { shift_offender IH. }
    case_bool_decide as Hempty.
    { shift_offender IH. }
    destruct (in_list token (skip_tokens lang_data)) eqn:Hskip; cbn [andb].
    + destruct index as [|index]; cbn [Nat.eqb negb].
      * split; [|done]. intros _. exists 0%nat, token. repeat split; auto.
      * shift_offender IH.
    + split; [|done]. intros _. exists 0%nat, token. repeat split; auto.
Qed.

End Scanner.

Section Runs.

Context `{Unicode} (data : pystr → option language_info).
Implicit Types (sc : scanner) (token language : pystr) (run : list pystr).

(** The text of a run holds every token once, in order. *)
Lemma run_text_tokens run :
  run_text run = join (map (λ token, _strip_accents (str_lower token)) run).
Proof. unfold run_text. by rewrite map_map. Qed.

(** A cardinal reading that is [None] or [0] hands the run to the ordinal
    reader, always for English. *)
Lemma parse_number_tokens_fallback language run (cardinal : option Z) :
  parse_number data (run_text run) language = Ok cardinal →
  truthy cardinal = false →
  _parse_number_tokens data run language =
    parse_ordinal data (run_text run) (py "en")
    ≫= λ ordinal, Ok (number_or_text ordinal (run_text run)).
Proof.
  intros Hcardinal Hfalsy. unfold _parse_number_tokens.
  rewrite Hcardinal. cbn. by rewrite Hfalsy.
Qed.

Lemma parse_number_tokens_unresolved language run (cardinal ordinal : option Z) :
  parse_number data (run_text run) language = Ok cardinal →
  truthy cardinal = false →
  parse_ordinal data (run_text run) (py "en") = Ok ordinal →
  truthy ordinal = false →
  _parse_number_tokens data run language = Ok (run_text run).
Proof.
  intros Hcardinal Hfalsy Hordinal Hfalsy'.
  rewrite (parse_number_tokens_fallback _ _ _ Hcardinal Hfalsy), Hordinal. cbn.
  unfold number_or_text. destruct ordinal; by rewrite ?Hfalsy'.
Qed.

(** A token that is no numeral, no whitespace, not empty and no skip word
    ends the run: the run's replacement goes to the sentence, then the run's
    last token again when it is whitespace, then the token. *)
Lemma parse_step_boundary language sc token (text final : pystr) :
  building_number sc = true →
  is_number_token data (_strip_accents (str_lower token)) language = Ok false →
  isspace token = false → token ≠ [] →
  _is_skip_token data token language = Ok false →
  _parse_number_tokens data (current_number sc) language = Ok text →
  last (current_number sc) = Some final →
  parse_step data language sc token =
    Ok {| sentence :=
            (if isspace final then (sentence sc ++ [text]) ++ [final]
             else sentence sc ++ [text]) ++ [token];
          current_number := [];
          building_number := false |}.
Proof.
  intros Hbuilding Hnumeral Hws Hempty Hskip Htext Hlast. unfold parse_step.
  rewrite Hnumeral, Hbuilding, Hws. cbn.
  rewrite bool_decide_eq_false_2 by done. rewrite Hskip. cbn.
  by rewrite Htext, Hlast.
Qed.

(** ** The conversion of ordinals *)

Lemma startswith_app (p s : pystr) : startswith p s = true ↔ ∃ k, s = p ++ k.
Proof.
  revert s. induction p as [|a p IH]; intros [|b s]; cbn.
  - split; [by exists []|done].
  - split; [by exists (b :: s)|done].
  - split; [done|]. by intros [k Hk].
  - rewrite andb_true_iff, IH, N.eqb_eq. split.
    + intros [-> [k ->]]. by exists k.
    + intros [k Hk]. simplify_eq. eauto.
Qed.

(** Where [pattern$] matches at the start of [s]: [s] is the pattern, alone or
    followed by one final newline. *)
Lemma match_at_end (pattern s : pystr) :
  startswith pattern s
  && (bool_decide (drop (length pattern) s = [])
      || bool_decide (drop (length pattern) s = [10%N])) = true
  ↔ s = pattern ∨ s = pattern ++ [10%N].
Proof.
  rewrite andb_true_iff, orb_true_iff, !bool_decide_eq_true, startswith_app. split.
  - intros [[k ->] Hk]. rewrite drop_app_length in Hk.
    destruct Hk as [-> | ->]; [left; by rewrite app_nil_r | by right].
  - intros [-> | ->].
    + split; [exists []; by rewrite app_nil_r|]. left. apply drop_all.
    + split; [by exists [10%N]|]. right. apply drop_app_length.
Qed.

(** The pattern standing at the very end is rewritten. *)
Lemma re_sub_at_end_suffix (pattern repl s : pystr) :
  pattern ≠ [] → last pattern ≠ Some 10%N →
  re_sub_at_end pattern repl (s ++ pattern) = s ++ repl.
Proof.
  intros Hne Hlast. induction s as [|c s IH].
  - destruct pattern as [|a pattern]; [done|]. cbn [app re_sub_at_end].
    rewrite (proj2 (match_at_end _ _)) by by left.
    by rewrite drop_all, app_nil_r.
  - cbn [app re_sub_at_end].
    destruct (startswith pattern (c :: s ++ pattern) && _) eqn:Hmatch;
      [|by rewrite IH].
    apply match_at_end in Hmatch as [Heq | Heq].
    + apply (f_equal length) in Heq. cbn in Heq. rewrite length_app in Heq. lia.
    + assert (s = []) as ->.
      { apply (f_equal length) in Heq. cbn in Heq. rewrite !length_app in Heq.
        cbn in Heq. destruct s; [done|cbn in Heq; lia]. }
      apply (f_equal last) in Heq. rewrite last_snoc in Heq. cbn [app] in Heq.
      destruct pattern as [|a pattern]; [done|].
      by rewrite last_cons_cons in Heq.
Qed.

(** So is the pattern standing before a newline that ends the string. *)
Lemma re_sub_at_end_newline (pattern repl s : pystr) :
  re_sub_at_end pattern repl (s ++ pattern ++ [10%N]) = s ++ repl ++ [10%N].
Proof.
  induction s as [|c s IH].
  - cbn [app]. destruct (pattern ++ [10%N]) as [|a rest] eqn:Hrest.
    { by destruct pattern. }
    cbn [re_sub_at_end]. rewrite <- Hrest.
    rewrite (proj2 (match_at_end _ _)) by by right.
    by rewrite drop_app_length.
  - cbn [app re_sub_at_end].
    destruct (startswith pattern (c :: s ++ pattern ++ [10%N]) && _) eqn:Hmatch;
      [|by rewrite IH].
    apply match_at_end in Hmatch as [Heq | Heq];
      apply (f_equal length) in Heq; cbn in Heq;
      rewrite !length_app in Heq; cbn in Heq; lia.
Qed.

(** A string that ends in neither way is left as it is. *)
Lemma re_sub_at_end_unchanged (pattern repl s : pystr) :
  (∀ front, s ≠ front ++ pattern) →
  (∀ front, s ≠ front ++ pattern ++ [10%N]) →
  re_sub_at_end pattern repl s = s.
Proof.
  induction s as [|c s IH]; intros Hend Hnewline; [done|].
  cbn [re_sub_at_end].
  destruct (startswith pattern (c :: s) && _) eqn:Hmatch.
  - apply match_at_end in Hmatch as [Heq | Heq].
    + by destruct (Hend []).
    + by destruct (Hnewline []).
  - rewrite IH; [done| |].
    + intros front ->. by apply (Hend (c :: front)).
    + intros front ->. by apply (Hnewline (c :: front)).
Qed.

End Runs.

(** ** The conversion of the specification, and printed numbers *)

(** On a text that does not end in a newline, [pattern$] is rewritten exactly
    where the text ends with the pattern. *)
Lemma re_sub_at_end_trailing (pattern repl s : pystr) :
  pattern ≠ [] → last pattern ≠ Some 10%N → last s ≠ Some 10%N →
  re_sub_at_end pattern repl s = rewrite_trailing pattern repl s.
Proof.
  intros Hne Hpattern Hlast. unfold rewrite_trailing, endswith.
  case_bool_decide as Hsuffix.
  - destruct Hsuffix as [front ->]. rewrite re_sub_at_end_suffix by done.
    by rewrite length_app, Nat.add_sub, take_app_length.
  - apply re_sub_at_end_unchanged.
    + intros front ->. apply Hsuffix. by exists front.
    + intros front ->. apply Hlast. by rewrite !app_assoc, last_snoc.
Qed.

Lemma rewrite_trailing_last (pattern s : pystr) (c : N) :
  c ≠ 10%N → last s ≠ Some 10%N →
  last (rewrite_trailing pattern [c] s) ≠ Some 10%N.
Proof.
  intros Hc Hlast. unfold rewrite_trailing. destruct (endswith pattern s); [|done].
  rewrite last_snoc. congruence.
Qed.

Lemma py_inj : Inj (=) (=) py.
Proof.
  intros s1 s2 Hpy. unfold py in Hpy.
  rewrite <- (string_of_list_ascii_of_string s1), <- (string_of_list_ascii_of_string s2).
  f_equal. revert Hpy. generalize (list_ascii_of_string s1) (list_ascii_of_string s2).
  induction l as [|a l IH]; intros [|a' l']; cbn; try done.
  intros [= Ha Hl]. f_equal; [|by apply IH].
  by rewrite <- (ascii_N_embedding a), <- (ascii_N_embedding a'), Ha.
Qed.

(** Only 0 prints as "0". *)
Lemma py_str_zero (n : Z) : py_str n = py "0" → n = 0.
Proof.
  unfold py_str. intros Hn%py_inj.
  by apply (inj (pretty : Z → string)).
Qed.

(** A replacement that reads "0" is the text itself: a number that is
    printed is not 0. *)
Lemma number_or_text_zero (number : option Z) (text : pystr) :
  number_or_text number text = py "0" → text = py "0".
Proof.
  unfold number_or_text, truthy. destruct number as [n|]; [|done].
  destruct (Z.eqb_spec n 0) as [|Hn]; cbn; [done|].
  by intros Hzero%py_str_zero.
Qed.

(** ** The specification's examples, evaluated *)

Example sentence_substitution :
  en_parse "I have twenty three apples and one orange."
  = Ok (py "I have 23 apples and 1 orange.").
Proof. by vm_compute. Qed.

Example skip_word_passthrough :
  en_parse_number "one hundred and twenty" = Ok (Some 120).
Proof. by vm_compute. Qed.

Example digits_round_trip : en_parse_number "1200" = Ok (Some 1200).
Proof. by vm_compute. Qed.

(** A run that does not resolve and ends in whitespace: lines 253-254 append
    the whitespace that the returned text already ends with. *)
Example trailing_whitespace_is_repeated :
  en_parse "twenty twenty apples" = Ok (py "twenty twenty  apples").
Proof. by vm_compute. Qed.

(** * The claims *)

(** ** The group accumulator *)

(** C1. In [_build_number], from any state of the loop (so in every token
    stream and for every lexicon): when [combined = total_value +
    current_grp_value] is not zero and the token examined is a big power of
    ten whose scale [S] is greater than [combined] and is not 100, the turn is
    a multiplicative closure.  [total_value] becomes [combined * S],
    [current_grp_value] becomes 0, the pending skip tokens are cleared,
    [previous_power_of_10] becomes [S], the token becomes the previous token,
    and nothing is accumulated by category.  With the English lexicon,
    "one thousand two hundred" is 1200, "two hundred thousand" is 200000 and
    "one hundred thousand two hundred" is 100200. *)
Theorem large_multiplier_closure :
  (∀ (U : Unicode) (lang_data : LanguageData) (b : builder) (token : pystr) (S : Z),
     passed_over lang_data token = false →
     big_powers_of_ten lang_data !! token = Some S →
     total_value b + current_grp_value b ≠ 0 →
     S > total_value b + current_grp_value b →
     S ≠ 100 →
     build_step lang_data b token =
       {| total_value := (total_value b + current_grp_value b) * S;
          current_grp_value := 0;
          previous_token := Some token;
          previous_power_of_10 := Some S;
          value_list := value_list b;
          used_skip_tokens := [] |})
  ∧ en_parse_number "one thousand two hundred" = Ok (Some 1200)
  ∧ en_parse_number "two hundred thousand" = Ok (Some 200000)
  ∧ en_parse_number "one hundred thousand two hundred" = Ok (Some 100200).
Proof.
  split; [|by vm_compute].
  intros U lang_data b token S Hexamined Hpower Hnonzero Hgreater Hnot100.
  rewrite build_step_examined by done.
  rewrite (check_large_multiplier_true _ _ _ _ S) by done.
  unfold large_multiplier_step.
  by destruct (in_dict_Some _ _ _ Hpower) as [_ ->].
Qed.

Lemma large_multiplier_closure_witness :
  passed_over (H := BasicLatin.tables) en_lang_data (py "thousand") = false
  ∧ big_powers_of_ten en_lang_data !! py "thousand" = Some 1000
  ∧ build_step (H := BasicLatin.tables) en_lang_data two_hundred (py "thousand") =
      {| total_value := 200000; current_grp_value := 0;
         previous_token := Some (py "thousand");
         previous_power_of_10 := Some 1000;
         value_list := []; used_skip_tokens := [] |}.
Proof.
  assert (passed_over (H := BasicLatin.tables) en_lang_data (py "thousand") = false)
    as Hexamined by (vm_compute; reflexivity).
  assert (big_powers_of_ten en_lang_data !! py "thousand" = Some 1000)
    as Hpower by (vm_compute; reflexivity).
  split; [exact Hexamined|]. split; [exact Hpower|].
  apply (proj1 large_multiplier_closure BasicLatin.tables en_lang_data two_hundred
           (py "thousand") 1000 Hexamined Hpower); cbn; lia.
Defined.

(** C2. In [_build_number], a ten word examined right after another ten word
    or after a unit or direct word is invalid and makes a boundary: the number
    built so far is closed and appended as an integer segment (followed by
    the pending skip words), and a new number begins with the ten word.  With
    the English lexicon the tokens "twenty", "two", "ten" give exactly the
    segments 22 and 10, in that order. *)
Theorem ten_after_numeral_boundary :
  (∀ (U : Unicode) (lang_data : LanguageData) (b : builder)
     (token previous : pystr) (ten : Z),
     passed_over lang_data token = false →
     tens lang_data !! token = Some ten →
     unit_and_direct_numbers lang_data !! token = None →
     big_powers_of_ten lang_data !! token = None →
     previous_token b = Some previous →
     in_dict previous (tens lang_data) = true
     ∨ in_dict previous (unit_and_direct_numbers lang_data) = true →
     _check_validity token (previous_token b) (previous_power_of_10 b)
       (total_value b) (current_grp_value b) lang_data = false
     ∧ build_step lang_data b token =
         {| total_value := 0;
            current_grp_value := ten;
            previous_token := Some token;
            previous_power_of_10 := None;
            value_list :=
              (value_list b ++ [py_str (total_value b + current_grp_value b)])
              ++ used_skip_tokens b;
            used_skip_tokens := [] |})
  ∧ en_build_number ["twenty"; "two"; "ten"]%string = [py "22"; py "10"].
Proof.
  split; [|by vm_compute].
  intros U lang_data b token previous ten Hexamined Hten Hunit Hpower Hprev Hwhich.
  destruct (in_dict_Some _ _ _ Hten) as [Hin Hget].
  assert (_check_validity token (previous_token b) (previous_power_of_10 b)
            (total_value b) (current_grp_value b) lang_data = false) as Hinvalid.
  { rewrite Hprev. by apply check_validity_ten. }
  split; [done|].
  rewrite build_step_examined by done.
  rewrite check_large_multiplier_not_power by done.
  rewrite Hinvalid. unfold accumulate.
  rewrite (in_dict_None _ _ Hunit), Hin, Hget. cbn. by rewrite Z.add_0_l.
Qed.

Lemma ten_after_numeral_boundary_witness :
  tens en_lang_data !! py "thirty" = Some 30
  ∧ in_dict (py "two") (unit_and_direct_numbers en_lang_data) = true
  ∧ build_step (H := BasicLatin.tables) en_lang_data twenty_two (py "thirty") =
      {| total_value := 0; current_grp_value := 30;
         previous_token := Some (py "thirty"); previous_power_of_10 := None;
         value_list := [py "22"]; used_skip_tokens := [] |}.
Proof.
  assert (tens en_lang_data !! py "thirty" = Some 30) as Hten
    by (vm_compute; reflexivity).
  assert (in_dict (py "two") (unit_and_direct_numbers en_lang_data) = true) as Hunit
    by (vm_compute; reflexivity).
  split; [exact Hten|]. split; [exact Hunit|].
  refine (proj2 (proj1 ten_after_numeral_boundary BasicLatin.tables en_lang_data
                   twenty_two (py "thirty") (py "two") 30 _ Hten _ _ _ (or_intror Hunit)));
    vm_compute; reflexivity.
Defined.

(** C3. The lexicon's [maximum_group_value] is 10000 for a language of long
    scale and 100 otherwise.  In [_build_number] a big power of ten of scale
    [S] that is not taken as a multiplicative closure goes to the
    accumulation by category, where the open group (1 when it is 0) is
    multiplied by [S]; the group is closed early ([current_grp_value] added
    to [total_value] and reset to 0, [previous_power_of_10] set to [S])
    exactly when [S] is greater than [maximum_group_value]. *)
Theorem big_power_accumulation :
  (∀ (U : Unicode) (data : pystr → option language_info)
     (language : pystr) (lang_data : LanguageData),
     new_LanguageData data language = Ok lang_data →
     ∃ language_info,
       data language = Some language_info
       ∧ maximum_group_value lang_data =
           if USE_LONG_SCALE language_info then 10000 else 100)
  ∧ (∀ (U : Unicode) (lang_data : LanguageData) (b : builder) (token : pystr),
       passed_over lang_data token = false →
       _check_large_multiplier token (total_value b) (current_grp_value b) lang_data
         = false →
       build_step lang_data b token =
         accumulate lang_data
           (if _check_validity token (previous_token b) (previous_power_of_10 b)
                 (total_value b) (current_grp_value b) lang_data
            then b else close_number b) token)
  ∧ (∀ (lang_data : LanguageData) (b : builder) (token : pystr) (S : Z),
       unit_and_direct_numbers lang_data !! token = None →
       tens lang_data !! token = None →
       hundreds lang_data !! token = None →
       big_powers_of_ten lang_data !! token = Some S →
       accumulate lang_data b token =
         if bool_decide (S > maximum_group_value lang_data)
         then {| total_value :=
                   total_value b
                   + (if current_grp_value b =? 0 then 1 else current_grp_value b) * S;
                 current_grp_value := 0;
                 previous_token := Some token;
                 previous_power_of_10 := Some S;
                 value_list := value_list b;
                 used_skip_tokens := [] |}
         else {| total_value := total_value b;
                 current_grp_value :=
                   (if current_grp_value b =? 0 then 1 else current_grp_value b) * S;
                 previous_token := Some token;
                 previous_power_of_10 := previous_power_of_10 b;
                 value_list := value_list b;
                 used_skip_tokens := [] |}).
Proof.
  repeat split.
  - intros U data language lang_data. unfold new_LanguageData.
    destruct (negb _); [done|].
    destruct (data language) as [language_info|]; [|done].
    intros [= <-]. by exists language_info.
  - intros U lang_data b token Hexamined Hsmall.
    by rewrite build_step_examined, Hsmall.
  - intros lang_data b token S Hunit Hten Hhundred Hpower. unfold accumulate.
    rewrite (in_dict_None _ _ Hunit), (in_dict_None _ _ Hten),
      (in_dict_None _ _ Hhundred).
    destruct (in_dict_Some _ _ _ Hpower) as [-> ->].
    destruct (Z.gtb_spec S (maximum_group_value lang_data)).
    + by rewrite bool_decide_eq_true_2 by lia.
    + by rewrite bool_decide_eq_false_2 by lia.
Qed.

Lemma big_power_accumulation_witness :
  big_powers_of_ten en_lang_data !! py "thousand" = Some 1000
  ∧ maximum_group_value en_lang_data = 100
  ∧ accumulate en_lang_data builder_start (py "thousand") =
      {| total_value := 1000; current_grp_value := 0;
         previous_token := Some (py "thousand");
         previous_power_of_10 := Some 1000;
         value_list := []; used_skip_tokens := [] |}.
Proof.
  assert (big_powers_of_ten en_lang_data !! py "thousand" = Some 1000) as Hpower
    by (vm_compute; reflexivity).
  split; [exact Hpower|]. split; [reflexivity|].
  refine (eq_trans
            (proj2 (proj2 big_power_accumulation) en_lang_data
               builder_start (py "thousand") 1000 _ _ _ Hpower) _);
    vm_compute; reflexivity.
Defined.

(** ** One number *)

(** C4, as the code has it.  For a supported language and a text that is not
    numeric, [parse_number] returns [None] before the accumulator runs
    exactly when some normalized token that is no lexicon number word, not
    whitespace and not empty either is no skip word or stands first in the
    token list: a skip word is let through everywhere but at index 0.  When
    no token is rejected the result is read off the accumulator's output. *)
Theorem rejection_before_accumulator :
  ∀ (U : Unicode) (data : pystr → option language_info)
    (input_string language : pystr) (lang_data : LanguageData),
    new_LanguageData data language = Ok lang_data →
    isnumeric input_string = false →
    (tokens_accepted lang_data 0
       (_normalize_tokens (_tokenize input_string language)) = false
     ↔ ∃ (index : nat) (token : pystr),
         _normalize_tokens (_tokenize input_string language) !! index = Some token
         ∧ in_dict token (all_numbers lang_data) = false
         ∧ isspace token = false
         ∧ token ≠ []
         ∧ (in_list token (skip_tokens lang_data) = false ∨ index = 0%nat))
    ∧ (tokens_accepted lang_data 0
         (_normalize_tokens (_tokenize input_string language)) = false →
       parse_number data input_string language = Ok None)
    ∧ (tokens_accepted lang_data 0
         (_normalize_tokens (_tokenize input_string language)) = true →
       parse_number data input_string language =
         match _build_number (_normalize_tokens (_tokenize input_string language))
                 lang_data with
         | [segment] =>
             match py_int segment with
             | Some n => Ok (Some n)
             | None => Raise (InvalidLiteral segment)
             end
         | _ => Ok None
         end).
Proof.
  intros U data input_string language lang_data Hlang Htext. repeat split.
  - intros Hreject. by apply tokens_accepted_false in Hreject.
  - intros Hoffender. by apply tokens_accepted_false.
  - intros Hreject. unfold parse_number. rewrite Hlang. cbn.
    by rewrite Htext, Hreject.
  - intros Haccept. unfold parse_number. rewrite Hlang. cbn.
    by rewrite Htext, Haccept.
Qed.

Lemma rejection_before_accumulator_witness :
  new_LanguageData (H := BasicLatin.tables) en_data (py "en") = Ok en_lang_data
  ∧ isnumeric (H := BasicLatin.tables) (py "one and") = false
  ∧ en_parse_number "one and" = Ok (Some 1)
  ∧ en_parse_number "and one" = Ok None.
Proof.
  assert (new_LanguageData (H := BasicLatin.tables) en_data (py "en")
          = Ok en_lang_data) as Hlang by (vm_compute; reflexivity).
  split; [exact Hlang|]. split; [vm_compute; reflexivity|]. split.
  - refine (eq_trans
              (proj2 (proj2 (rejection_before_accumulator BasicLatin.tables en_data
                               (py "one and") (py "en") en_lang_data Hlang _)) _) _);
      vm_compute; reflexivity.
  - apply (proj1 (proj2 (rejection_before_accumulator BasicLatin.tables en_data
                           (py "and one") (py "en") en_lang_data Hlang eq_refl)));
      vm_compute; reflexivity.
Defined.

(** The claim C4 fails on "and one": every token is a skip word, whitespace
    or a number word, and still the text is rejected before the accumulator
    runs, because the skip word stands at index 0. *)
Lemma skip_word_first_is_rejected :
  _normalize_tokens (H := BasicLatin.tables)
    (_tokenize (H := BasicLatin.tables) (py "and one") (py "en"))
    = [py "and"; py " "; py "one"]
  ∧ in_list (py "and") (skip_tokens en_lang_data) = true
  ∧ isspace (H := BasicLatin.tables) (py " ") = true
  ∧ in_dict (py "one") (all_numbers en_lang_data) = true
  ∧ tokens_accepted (H := BasicLatin.tables) en_lang_data 0
      [py "and"; py " "; py "one"] = false
  ∧ en_parse_number "and one" = Ok None
  ∧ en_parse_number "one and" = Ok (Some 1).
Proof. by vm_compute. Qed.

(** ** Sentences *)

(** C5, which the code breaks.  "Twenty Twenty" resolves neither under
    [parse_number] nor under the ordinal fallback, and [parse] does not leave
    it as it stands: [_parse_number_tokens] returns the string it built for
    parsing, lower-cased, where the tokens buffered by [parse] keep their
    casing.  A run that does not resolve and is followed by a word is
    written with its last whitespace twice, once in that string and once by
    lines 253-254. *)
Theorem unresolved_run_loses_casing :
  en_parse_number "twenty twenty" = Ok None
  ∧ en_parse_ordinal "twenty twenty" = Ok None
  ∧ en_parse "Twenty Twenty" = Ok (py "twenty twenty")
  ∧ py "twenty twenty" ≠ py "Twenty Twenty"
  ∧ en_parse "twenty twenty apples" = Ok (py "twenty twenty  apples")
  ∧ py "twenty twenty  apples" ≠ py "twenty twenty apples".
Proof. by vm_compute. Qed.

(** C6. For a language code outside [SUPPORTED_LANGUAGES], [parse_number],
    [parse_ordinal] and [parse] raise the [ValueError] of an unsupported
    language, whatever the text, a digit literal included: none of them
    returns [None], a value or the reading of another language. *)
Theorem unsupported_language_raises :
  ∀ (U : Unicode) (data : pystr → option language_info)
    (input_string language : pystr),
    language ∉ SUPPORTED_LANGUAGES →
    parse_number data input_string language = Raise (UnsupportedLanguage language)
    ∧ parse_ordinal data input_string language = Raise (UnsupportedLanguage language)
    ∧ parse data input_string language = Raise (UnsupportedLanguage language).
Proof.
  intros U data input_string language Hnot. repeat split.
  - unfold parse_number. by rewrite new_LanguageData_unsupported.
  - unfold parse_ordinal, parse_number. by rewrite new_LanguageData_unsupported.
  - by apply parse_unsupported.
Qed.

Lemma unsupported_language_raises_witness :
  (py "xx" ∉ SUPPORTED_LANGUAGES)
  ∧ parse_number (H := BasicLatin.tables) en_data (py "12") (py "xx")
    = Raise (UnsupportedLanguage (py "xx"))
  ∧ parse_ordinal (H := BasicLatin.tables) en_data (py "12") (py "xx")
    = Raise (UnsupportedLanguage (py "xx"))
  ∧ parse (H := BasicLatin.tables) en_data (py "12") (py "xx")
    = Raise (UnsupportedLanguage (py "xx")).
Proof.
  assert (py "xx" ∉ SUPPORTED_LANGUAGES) as Hnot.
  { intros Hin. apply (bool_decide_eq_true_2 _) in Hin. vm_compute in Hin.
    discriminate Hin. }
  split; [exact Hnot|].
  exact (unsupported_language_raises BasicLatin.tables en_data (py "12") (py "xx") Hnot).
Defined.

(** C7, as the code has it.  For a language outside [RE_BUG_LANGUAGES] (en,
    es, ru) and a text none of whose tokens is a cardinal or ordinal numeral
    token, [parse] returns the text with every soft hyphen U+00AD deleted and
    nothing else changed: the text itself when it holds no soft hyphen. *)
Theorem parse_without_numerals :
  ∀ (U : Unicode) (data : pystr → option language_info)
    (input_string language : pystr),
    language ∉ RE_BUG_LANGUAGES →
    (∀ token, token ∈ _tokenize input_string language →
       is_number_token data (_strip_accents (str_lower token)) language = Ok false) →
    parse data input_string language
    = Ok (List.filter (λ c, negb (173 =? c)%N) input_string)
    ∧ (173%N ∉ input_string → parse data input_string language = Ok input_string).
Proof.
  intros U data input_string language Hbug Hnone.
  rewrite (parse_no_numeral data language input_string Hnone).
  unfold _tokenize, in_list. rewrite bool_decide_eq_false_2 by done.
  rewrite join_re_split_W. split.
  - by rewrite str_replace_delete.
  - intros Hshy. by rewrite str_replace_absent.
Qed.

Lemma parse_without_numerals_witness :
  is_number_token (H := BasicLatin.tables) en_data (py "apples") (py "en") = Ok false
  ∧ en_parse "apples, and pears." = Ok (py "apples, and pears.").
Proof.
  split; [vm_compute; reflexivity|].
  refine (proj2 (parse_without_numerals BasicLatin.tables en_data
                   (py "apples, and pears.") (py "en") _ _) _).
  - intros Hbug. apply (bool_decide_eq_true_2 _) in Hbug. by vm_compute in Hbug.
  - intros token Htoken.
    assert (_tokenize (H := BasicLatin.tables) (py "apples, and pears.") (py "en")
            = [py "apples"; py ","; []; py " "; py "and"; py " "; py "pears";
               py "."; []]) as Htokens by (vm_compute; reflexivity).
    rewrite Htokens in Htoken.
    repeat (apply elem_of_cons in Htoken as [-> | Htoken]; [vm_compute; reflexivity|]).
    by apply elem_of_nil in Htoken.
  - intros Hshy. apply (bool_decide_eq_true_2 _) in Hshy. by vm_compute in Hshy.
Defined.

(** The claim C7 fails on a text with a soft hyphen: its one token is no
    numeral, and [parse] returns the text without the soft hyphen. *)
Lemma soft_hyphen_is_deleted :
  _tokenize (H := BasicLatin.tables) (py "a" ++ [173%N] ++ py "b") (py "en")
    = [py "ab"]
  ∧ is_number_token (H := BasicLatin.tables) en_data (py "ab") (py "en") = Ok false
  ∧ parse (H := BasicLatin.tables) en_data (py "a" ++ [173%N] ++ py "b") (py "en")
    = Ok (py "ab")
  ∧ py "ab" ≠ py "a" ++ [173%N] ++ py "b".
Proof. by vm_compute. Qed.

(** ** Ordinals *)

(** C8, as the code has it.  [parse_ordinal] is [parse_number] of the
    converted text: lower-case, then every occurrence of first, second,
    third, fifth, eighth, ninth, twelfth replaced by one, two, three, five,
    eight, nine, twelve, then "ieth" rewritten to "y" and then "th" deleted
    where Python's [$] matches -- at the end of the text, and also just
    before a newline that ends the text.  On a text that does not end in a
    newline at that point this is the conversion of the specification, and
    [parse_ordinal] of "twenty third" is 23. *)
Theorem parse_ordinal_converts_then_parses :
  (∀ (U : Unicode) (data : pystr → option language_info)
     (input_string language : pystr),
     parse_ordinal data input_string language
     = parse_number data
         (re_sub_at_end (py "th") []
            (re_sub_at_end (py "ieth") (py "y")
               (replace_irregular_words (str_lower input_string))))
         language)
  ∧ (∀ (U : Unicode) (data : pystr → option language_info)
       (input_string language : pystr),
       last (replace_irregular_words (str_lower input_string)) ≠ Some 10%N →
       parse_ordinal data input_string language
       = parse_number data (spec_cardinal_conversion input_string) language)
  ∧ (∀ front : pystr,
       re_sub_at_end (py "ieth") (py "y") (front ++ py "ieth" ++ [10%N])
       = front ++ py "y" ++ [10%N])
  ∧ (∀ front : pystr,
       re_sub_at_end (py "th") [] (front ++ py "th" ++ [10%N]) = front ++ [10%N])
  ∧ en_parse_ordinal "twenty third" = Ok (Some 23).
Proof.
  split; [done|]. split; [|split; [|split]].
  - intros U data input_string language Hlast.
    unfold parse_ordinal, _apply_cardinal_conversion, spec_cardinal_conversion.
    change (foldl _ (str_lower input_string) CARDINAL_DIRECT_NUMBERS)
      with (replace_irregular_words (str_lower input_string)).
    rewrite (re_sub_at_end_trailing (py "ieth")) by done.
    rewrite (re_sub_at_end_trailing (py "th")); [done..|].
    by apply rewrite_trailing_last.
  - intros front. apply re_sub_at_end_newline.
  - intros front. apply (re_sub_at_end_newline (py "th") []).
  - by vm_compute.
Qed.

Lemma parse_ordinal_converts_then_parses_witness :
  last (replace_irregular_words (str_lower (Unicode := BasicLatin.tables)
                                   (py "twenty third"))) ≠ Some 10%N
  ∧ spec_cardinal_conversion (H := BasicLatin.tables) (py "twenty third")
    = py "twenty three"
  ∧ en_parse_ordinal "twenty third"
    = parse_number (H := BasicLatin.tables) en_data (py "twenty three") (py "en").
Proof.
  assert (last (replace_irregular_words (str_lower (Unicode := BasicLatin.tables)
                                           (py "twenty third"))) ≠ Some 10%N)
    as Hlast by (vm_compute; discriminate).
  split; [exact Hlast|]. split; [vm_compute; reflexivity|].
  exact (proj1 (proj2 parse_ordinal_converts_then_parses) BasicLatin.tables en_data
           (py "twenty third") (py "en") Hlast).
Defined.

(** The claim C8 fails on "fourth" followed by a newline: the text does not
    end with "th", so the conversion of the specification leaves it and
    [parse_number] finds no number, while [$] matches before the newline and
    [parse_ordinal] returns 4. *)
Lemma newline_after_ordinal :
  spec_cardinal_conversion (H := BasicLatin.tables) (py "fourth" ++ [10%N])
    = py "fourth" ++ [10%N]
  ∧ parse_number (H := BasicLatin.tables) en_data
      (spec_cardinal_conversion (H := BasicLatin.tables) (py "fourth" ++ [10%N]))
      (py "en") = Ok None
  ∧ _apply_cardinal_conversion (H := BasicLatin.tables) (py "fourth" ++ [10%N])
      (py "en") = py "four" ++ [10%N]
  ∧ parse_ordinal (H := BasicLatin.tables) en_data (py "fourth" ++ [10%N]) (py "en")
    = Ok (Some 4).
Proof. by vm_compute. Qed.

(** C9. In [parse], when the cardinal reading of a buffered run does not
    resolve, the fallback is [parse_ordinal] of the run's text with the
    language 'en', whatever language the caller asked for; and
    [_apply_cardinal_conversion] gives the same text for every language
    argument, the one of the English rules. *)
Theorem ordinal_fallback_is_english :
  (∀ (U : Unicode) (input_string language : pystr),
     _apply_cardinal_conversion input_string language
     = _apply_cardinal_conversion input_string (py "en"))
  ∧ (∀ (U : Unicode) (data : pystr → option language_info) (language : pystr)
       (run : list pystr) (cardinal : option Z),
       parse_number data (run_text run) language = Ok cardinal →
       truthy cardinal = false →
       _parse_number_tokens data run language
       = parse_ordinal data (run_text run) (py "en")
         ≫= λ ordinal, Ok (number_or_text ordinal (run_text run))).
Proof.
  split; [done|].
  intros U data language run cardinal Hcardinal Hfalsy.
  by apply (parse_number_tokens_fallback data language run cardinal).
Qed.

Lemma ordinal_fallback_is_english_witness :
  en_parse_number "twenty third" = Ok None
  ∧ en_parse_ordinal "twenty third" = Ok (Some 23)
  ∧ _parse_number_tokens (H := BasicLatin.tables) en_data
      [py "Twenty"; py " "; py "Third"] (py "en") = Ok (py "23").
Proof.
  assert (parse_number (H := BasicLatin.tables) en_data
            (run_text (H := BasicLatin.tables) [py "Twenty"; py " "; py "Third"])
            (py "en") = Ok None) as Hcardinal by (vm_compute; reflexivity).
  split; [exact Hcardinal|]. split; [vm_compute; reflexivity|].
  refine (eq_trans
            (proj2 ordinal_fallback_is_english BasicLatin.tables en_data (py "en")
               [py "Twenty"; py " "; py "Third"] None Hcardinal eq_refl) _).
  vm_compute; reflexivity.
Defined.

(** C10. In [parse], a buffered run whose cardinal reading is the integer 0
    goes the way of a run with no cardinal reading: the ordinal fallback is
    tried, and when that gives 0 or [None] as well the run is replaced by its
    lower-cased, accent-free text.  What replaces a run is never the digit
    string "0" unless that is the run's own text; [parse] of "zero" is
    "zero". *)
Theorem zero_is_treated_as_failure :
  (∀ (U : Unicode) (data : pystr → option language_info) (language : pystr)
     (run : list pystr) (cardinal : option Z),
     parse_number data (run_text run) language = Ok cardinal →
     cardinal = Some 0 ∨ cardinal = None →
     _parse_number_tokens data run language
     = parse_ordinal data (run_text run) (py "en")
       ≫= (λ ordinal, Ok (number_or_text ordinal (run_text run)))
     ∧ (∀ ordinal : option Z,
          parse_ordinal data (run_text run) (py "en") = Ok ordinal →
          ordinal = Some 0 ∨ ordinal = None →
          _parse_number_tokens data run language = Ok (run_text run)))
  ∧ (∀ (U : Unicode) (data : pystr → option language_info) (language : pystr)
       (run : list pystr),
       _parse_number_tokens data run language = Ok (py "0") →
       run_text run = py "0")
  ∧ en_parse_number "zero" = Ok (Some 0)
  ∧ en_parse "zero" = Ok (py "zero").
Proof.
  split; [|split; [|by vm_compute]].
  - intros U data language run cardinal Hcardinal Hzero.
    assert (truthy cardinal = false) as Hfalsy by by destruct Hzero as [-> | ->].
    split; [by apply (parse_number_tokens_fallback data language run cardinal)|].
    intros ordinal Hordinal Hzero'.
    apply (parse_number_tokens_unresolved data language run cardinal ordinal);
      try done.
    by destruct Hzero' as [-> | ->].
  - intros U data language run. unfold _parse_number_tokens.
    destruct (parse_number data (run_text run) language) as [cardinal|]; [|done].
    cbn. destruct (truthy cardinal); cbn.
    + intros [= Hzero]. by apply number_or_text_zero in Hzero.
    + destruct (parse_ordinal data (run_text run) (py "en")) as [ordinal|]; [|done].
      cbn. intros [= Hzero]. by apply number_or_text_zero in Hzero.
Qed.

Lemma zero_is_treated_as_failure_witness :
  en_parse_number "zero" = Ok (Some 0)
  ∧ en_parse_ordinal "zero" = Ok (Some 0)
  ∧ _parse_number_tokens (H := BasicLatin.tables) en_data [py "Zero"] (py "en")
    = Ok (py "zero").
Proof.
  assert (parse_number (H := BasicLatin.tables) en_data
            (run_text (H := BasicLatin.tables) [py "Zero"]) (py "en") = Ok (Some 0))
    as Hcardinal by (vm_compute; reflexivity).
  assert (parse_ordinal (H := BasicLatin.tables) en_data
            (run_text (H := BasicLatin.tables) [py "Zero"]) (py "en") = Ok (Some 0))
    as Hordinal by (vm_compute; reflexivity).
  split; [exact Hcardinal|]. split; [exact Hordinal|].
  exact (proj2 (proj1 zero_is_treated_as_failure BasicLatin.tables en_data (py "en")
                  [py "Zero"] (Some 0) Hcardinal (or_introl eq_refl))
           (Some 0) Hordinal (or_introl eq_refl)).
Defined.

(** * Further properties of the code *)

(** ** The accumulator *)

Section AccumulatorFacts.

Context `{Unicode}.
Implicit Types (lang_data : LanguageData) (b : builder) (token : pystr).

Lemma build_step_blank lang_data b token :
  is_blank token = true → build_step lang_data b token = b.
Proof. unfold is_blank, build_step. by intros ->. Qed.

Lemma foldl_build_step_filter lang_data b (tokens : list pystr) :
  foldl (build_step lang_data) b
    (List.filter (λ token, negb (is_blank token)) tokens)
  = foldl (build_step lang_data) b tokens.
Proof.
  revert b. induction tokens as [|token tokens IH]; intros b; cbn; [done|].
  destruct (is_blank token) eqn:Hblank; cbn.
  - by rewrite build_step_blank.
  - apply IH.
Qed.

Lemma getitem_nonnegative (d : gmap pystr Z) (key : pystr) :
  map_Forall (λ _ v, 0 ≤ v) d → 0 ≤ getitem d key.
Proof.
  intros Hd. unfold getitem. destruct (d !! key) as [v|] eqn:Hkey; cbn; [|done].
  by apply (Hd key v).
Qed.

Lemma accumulate_nonnegative lang_data b token :
  nonnegative_values lang_data →
  0 ≤ total_value b → 0 ≤ current_grp_value b →
  0 ≤ total_value (accumulate lang_data b token)
  ∧ 0 ≤ current_grp_value (accumulate lang_data b token).
Proof.
  intros (Hunit & Hten & Hhundred & Hpower) Htotal Hgrp. unfold accumulate.
  pose proof (getitem_nonnegative _ token Hunit).
  pose proof (getitem_nonnegative _ token Hten).
  pose proof (getitem_nonnegative _ token Hhundred).
  pose proof (getitem_nonnegative _ token Hpower).
  destruct (in_dict token (unit_and_direct_numbers lang_data)); cbn; [lia|].
  destruct (in_dict token (tens lang_data)); cbn; [lia|].
  destruct (in_dict token (hundreds lang_data)); cbn; [lia|].
  destruct (in_dict token (big_powers_of_ten lang_data)); cbn; [|lia].
  destruct (_ >? _); cbn; destruct (Z.eqb_spec (current_grp_value b) 0); nia.
Qed.

Lemma build_step_nonnegative lang_data b token :
  nonnegative_values lang_data →
  0 ≤ total_value b → 0 ≤ current_grp_value b →
  0 ≤ total_value (build_step lang_data b token)
  ∧ 0 ≤ current_grp_value (build_step lang_data b token).
Proof.
  intros Hvalues Htotal Hgrp. unfold build_step.
  destruct (isspace token || bool_decide (token = [])); [done|].
  destruct (in_list token (skip_tokens lang_data)); [done|].
  destruct (_check_large_multiplier _ _ _ _).
  - cbn. split; [|done].
    pose proof (getitem_nonnegative _ token (proj2 (proj2 (proj2 Hvalues)))). nia.
  - destruct (_check_validity _ _ _ _ _ _); cbn [negb];
      by apply accumulate_nonnegative.
Qed.

(** The segments appended so far are never taken back. *)
Lemma build_step_keeps_segments lang_data b token :
  value_list b `prefix_of` value_list (build_step lang_data b token).
Proof.
  unfold build_step.
  destruct (isspace token || bool_decide (token = [])); [done|].
  destruct (in_list token (skip_tokens lang_data)); [done|].
  destruct (_check_large_multiplier _ _ _ _); [done|].
  assert (∀ b', value_list (accumulate lang_data b' token) = value_list b') as ->.
  { intros b'. unfold accumulate.
    destruct (in_dict token (unit_and_direct_numbers lang_data)); [done|].
    destruct (in_dict token (tens lang_data)); [done|].
    destruct (in_dict token (hundreds lang_data)); [done|].
    destruct (in_dict token (big_powers_of_ten lang_data)); [|done].
    by destruct (_ >? _). }
  destruct (_check_validity _ _ _ _ _ _); cbn [negb]; [done|].
  cbn. rewrite <- app_assoc. by apply prefix_app_r.
Qed.

Lemma foldl_build_step_keeps_segments lang_data b (tokens : list pystr) :
  value_list b `prefix_of` value_list (foldl (build_step lang_data) b tokens).
Proof.
  revert b. induction tokens as [|token tokens IH]; intros b; cbn; [done|].
  etrans; [apply build_step_keeps_segments|apply IH].
Qed.

End AccumulatorFacts.

(** X1. Whitespace and empty tokens take no part in [_build_number]: the
    token list with all of them removed gives the same segments. *)
Theorem build_number_ignores_blank_tokens :
  ∀ (U : Unicode) (lang_data : LanguageData) (token_list : list pystr),
    _build_number (List.filter (λ token, negb (is_blank token)) token_list) lang_data
    = _build_number token_list lang_data.
Proof.
  intros U lang_data token_list. unfold _build_number.
  by rewrite foldl_build_step_filter.
Qed.

(** X2. When no table of the lexicon holds a negative value, [total_value]
    and [current_grp_value] are never negative, whatever tokens the loop of
    [_build_number] has read; so the number printed last is not negative. *)
Theorem accumulator_values_nonnegative :
  ∀ (U : Unicode) (lang_data : LanguageData) (token_list : list pystr),
    nonnegative_values lang_data →
    0 ≤ total_value (builder_after lang_data token_list)
    ∧ 0 ≤ current_grp_value (builder_after lang_data token_list)
    ∧ ∃ n : Z, 0 ≤ n ∧ last (_build_number token_list lang_data) = Some (py_str n).
Proof.
  intros U lang_data token_list Hvalues. unfold builder_after.
  assert (∀ b, 0 ≤ total_value b → 0 ≤ current_grp_value b →
               0 ≤ total_value (foldl (build_step lang_data) b token_list)
               ∧ 0 ≤ current_grp_value (foldl (build_step lang_data) b token_list))
    as Hloop.
  { induction token_list as [|token tokens IH]; intros b Htotal Hgrp; cbn; [done|].
    destruct (build_step_nonnegative lang_data b token Hvalues Htotal Hgrp).
    by apply IH. }
  destruct (Hloop builder_start) as [Htotal Hgrp]; [done..|].
  split; [done|]. split; [done|].
  exists (total_value (foldl (build_step lang_data) builder_start token_list)
          + current_grp_value (foldl (build_step lang_data) builder_start token_list)).
  split; [lia|]. unfold _build_number. by rewrite last_snoc.
Qed.

Lemma accumulator_values_nonnegative_witness :
  nonnegative_values en_lang_data
  ∧ 0 ≤ total_value
          (builder_after (H := BasicLatin.tables) en_lang_data
             [py "two"; py " "; py "hundred"; py " "; py "thousand"]).
Proof.
  assert (nonnegative_values en_lang_data) as Hvalues.
  { unfold nonnegative_values.
    repeat split; apply (bool_decide_unpack _); vm_compute; exact I. }
  split; [exact Hvalues|].
  exact (proj1 (accumulator_values_nonnegative BasicLatin.tables en_lang_data
                  [py "two"; py " "; py "hundred"; py " "; py "thousand"] Hvalues)).
Defined.

(** X3. A segment that [_build_number] has appended is never changed or
    removed: the segments present after a part of the tokens are a prefix of
    the result for the whole list.  So a result of one segment means that no
    boundary was declared at any point of the list. *)
Theorem emitted_segments_are_kept :
  ∀ (U : Unicode) (lang_data : LanguageData) (before after : list pystr),
    value_list (builder_after lang_data before)
      `prefix_of` _build_number (before ++ after) lang_data
    ∧ (length (_build_number (before ++ after) lang_data) = 1%nat →
       value_list (builder_after lang_data before) = []).
Proof.
  intros U lang_data before after. unfold _build_number, builder_after.
  rewrite foldl_app.
  pose proof (foldl_build_step_keeps_segments lang_data
                (foldl (build_step lang_data) builder_start before) after) as Hkept.
  split; [by apply prefix_app_r|].
  rewrite length_app. cbn. intros Hone.
  destruct (value_list (foldl (build_step lang_data)
                          (foldl (build_step lang_data) builder_start before) after))
    as [|segment segments] eqn:Hall; [|cbn in Hone; lia].
  by apply prefix_nil_inv in Hkept.
Qed.

Lemma emitted_segments_are_kept_witness :
  length (_build_number (H := BasicLatin.tables)
            ([py "one"; py " "; py "hundred"] ++ [py " "; py "two"]) en_lang_data)
    = 1%nat
  ∧ value_list (builder_after (H := BasicLatin.tables) en_lang_data
                  [py "one"; py " "; py "hundred"]) = [].
Proof.
  assert (length (_build_number (H := BasicLatin.tables)
                    ([py "one"; py " "; py "hundred"] ++ [py " "; py "two"])
                    en_lang_data) = 1%nat) as Hone by (vm_compute; reflexivity).
  split; [exact Hone|].
  exact (proj2 (emitted_segments_are_kept BasicLatin.tables en_lang_data
                  [py "one"; py " "; py "hundred"] [py " "; py "two"]) Hone).
Defined.

Section SingleWord.

Context `{Unicode}.

(** With nothing read before it, a word is a valid start of a number. *)
Lemma check_validity_first (lang_data : LanguageData) (token : pystr) :
  0 ≤ getitem (big_powers_of_ten lang_data) token →
  _check_validity token None None 0 0 lang_data = true.
Proof.
  intros Hpower. unfold _check_validity. cbn [opt_in_dict].
  rewrite !andb_false_r. cbn.
  destruct (in_dict token (tens lang_data)); [done|].
  destruct (in_dict token (hundreds lang_data)); [done|].
  destruct (in_dict token (big_powers_of_ten lang_data)); [|done].
  by destruct (Z.ltb_spec (getitem (big_powers_of_ten lang_data) token) 0); [lia|].
Qed.

End SingleWord.

(** X4. [_build_number] on one word that is examined gives one segment, the
    value the lexicon holds for the word (0 for a word of no table), provided
    the word is not a big power of ten of negative value. *)
Theorem single_word_value :
  ∀ (U : Unicode) (lang_data : LanguageData) (token : pystr),
    passed_over lang_data token = false →
    0 ≤ getitem (big_powers_of_ten lang_data) token →
    _build_number [token] lang_data = [py_str (word_value lang_data token)].
Proof.
  intros U lang_data token Hexamined Hpower. unfold _build_number. cbn [foldl].
  rewrite build_step_examined by done.
  change (_check_large_multiplier token (total_value builder_start)
            (current_grp_value builder_start) lang_data) with false.
  change (_check_validity token (previous_token builder_start)
            (previous_power_of_10 builder_start) (total_value builder_start)
            (current_grp_value builder_start) lang_data)
    with (_check_validity token None None 0 0 lang_data).
  rewrite check_validity_first by done.
  unfold accumulate, word_value.
  destruct (in_dict token (unit_and_direct_numbers lang_data)); [done|].
  destruct (in_dict token (tens lang_data)); [done|].
  destruct (in_dict token (hundreds lang_data)); [done|].
  destruct (in_dict token (big_powers_of_ten lang_data)); [|done].
  destruct (_ >? _); cbn; do 3 f_equal; lia.
Qed.

Lemma single_word_value_witness :
  passed_over (H := BasicLatin.tables) en_lang_data (py "thousand") = false
  ∧ word_value en_lang_data (py "thousand") = 1000
  ∧ _build_number (H := BasicLatin.tables) [py "thousand"] en_lang_data = [py "1000"].
Proof.
  assert (passed_over (H := BasicLatin.tables) en_lang_data (py "thousand") = false)
    as Hexamined by (vm_compute; reflexivity).
  split; [exact Hexamined|]. split; [vm_compute; reflexivity|].
  refine (eq_trans (single_word_value BasicLatin.tables en_lang_data (py "thousand")
                      Hexamined _) _).
  - vm_compute. discriminate.
  - vm_compute. reflexivity.
Defined.

(** ** The lexicon *)

Section LexiconFacts.

Context `{Unicode}.

Lemma in_dict_merge (d1 d2 : gmap pystr Z) (key : pystr) :
  in_dict key (dict_merge d1 d2) = in_dict key d1 || in_dict key d2.
Proof.
  unfold in_dict, dict_merge. rewrite orb_comm, <- bool_decide_or.
  apply bool_decide_ext, lookup_union_is_Some.
Qed.

Lemma normalize_dict_snoc (items : list (pystr * Z)) (word : pystr) (v : Z) :
  _normalize_dict (items ++ [(word, v)])
  = <[_strip_accents word := v]> (_normalize_dict items).
Proof. unfold _normalize_dict. by rewrite foldl_snoc. Qed.

Lemma normalize_dict_is_Some (items : list (pystr * Z)) (key : pystr) :
  is_Some (_normalize_dict items !! key)
  ↔ ∃ word v, (word, v) ∈ items ∧ _strip_accents word = key.
Proof.
  induction items as [|item items IH] using rev_ind.
  - cbn. rewrite lookup_empty. split; [by intros [? ?]|].
    by intros (word & v & Hin%elem_of_nil & _).
  - destruct item as [word v]. rewrite normalize_dict_snoc.
    destruct (decide (_strip_accents word = key)) as [<- | Hne].
    + rewrite lookup_insert_eq. split; [|by eauto].
      intros _. exists word, v. split; [|done].
      apply elem_of_app. right. by apply list_elem_of_singleton.
    + rewrite lookup_insert_ne by done. rewrite IH. split.
      * intros (word' & v' & Hin & Hkey). exists word', v'. split; [|done].
        apply elem_of_app. by left.
      * intros (word' & v' & Hin & Hkey). exists word', v'. split; [|done].
        apply elem_of_app in Hin as [Hin | Hin%list_elem_of_singleton]; [done|].
        congruence.
Qed.

Lemma normalize_dict_later_wins (front back : list (pystr * Z))
    (word : pystr) (v : Z) :
  (∀ item, item ∈ back → _strip_accents item.1 ≠ _strip_accents word) →
  _normalize_dict (front ++ (word, v) :: back) !! _strip_accents word = Some v.
Proof.
  induction back as [|item back IH] using rev_ind; intros Hback.
  - rewrite normalize_dict_snoc. by rewrite lookup_insert_eq.
  - destruct item as [word' v'].
    replace (front ++ (word, v) :: back ++ [(word', v')])
      with ((front ++ (word, v) :: back) ++ [(word', v')])
      by by rewrite <- app_assoc.
    rewrite normalize_dict_snoc, lookup_insert_ne.
    + apply IH. intros item Hitem. apply Hback. set_solver.
    + apply (Hback (word', v')). set_solver.
Qed.

End LexiconFacts.

(** X5. [_normalize_dict] files every entry of a data table under the
    accent-free form of its word: a key is present exactly when it is the
    accent-free form of some word of the table, and the value found under the
    accent-free form of a word is that of the last entry with this form. *)
Theorem normalize_dict_lookup :
  ∀ (U : Unicode) (lang_dict : list (pystr * Z)),
    (∀ key : pystr,
       is_Some (_normalize_dict lang_dict !! key)
       ↔ ∃ word number, (word, number) ∈ lang_dict ∧ _strip_accents word = key)
    ∧ (∀ (front back : list (pystr * Z)) (word : pystr) (number : Z),
         lang_dict = front ++ (word, number) :: back →
         (∀ item, item ∈ back → _strip_accents item.1 ≠ _strip_accents word) →
         _normalize_dict lang_dict !! _strip_accents word = Some number).
Proof.
  intros U lang_dict. split.
  - intros key. apply normalize_dict_is_Some.
  - intros front back word number -> Hback. by apply normalize_dict_later_wins.
Qed.

Lemma normalize_dict_lookup_witness :
  _normalize_dict (H := BasicLatin.tables) (TENS en_info) !! py "forty" = Some 40.
Proof.
  refine (proj2 (normalize_dict_lookup BasicLatin.tables (TENS en_info))
            [(py "twenty", 20); (py "thirty", 30)]
            [(py "fifty", 50); (py "sixty", 60); (py "seventy", 70);
             (py "eighty", 80); (py "ninety", 90)]
            (py "forty") 40 eq_refl _).
  intros item Hitem.
  repeat (apply elem_of_cons in Hitem as [-> | Hitem]; [by vm_compute|]).
  by apply elem_of_nil in Hitem.
Defined.

(** X6. In the lexicon that [LanguageData.__init__] builds, a word is in
    [all_numbers] exactly when it is in one of the five tables, which is
    exactly when the accumulation by category of [_build_number] has a branch
    for it; and [unit_and_direct_numbers] gives a word its value as a direct
    number when it has one, as a unit number otherwise. *)
Theorem lexicon_tables_compose :
  ∀ (U : Unicode) (language_info : language_info) (token : pystr),
    in_dict token (all_numbers (load_language_info language_info))
    = in_dict token (unit_numbers (load_language_info language_info))
      || in_dict token (direct_numbers (load_language_info language_info))
      || in_dict token (tens (load_language_info language_info))
      || in_dict token (hundreds (load_language_info language_info))
      || in_dict token (big_powers_of_ten (load_language_info language_info))
    ∧ in_dict token (all_numbers (load_language_info language_info))
      = in_dict token (unit_and_direct_numbers (load_language_info language_info))
        || in_dict token (tens (load_language_info language_info))
        || in_dict token (hundreds (load_language_info language_info))
        || in_dict token (big_powers_of_ten (load_language_info language_info))
    ∧ unit_and_direct_numbers (load_language_info language_info) !! token
      = match direct_numbers (load_language_info language_info) !! token with
        | Some number => Some number
        | None => unit_numbers (load_language_info language_info) !! token
        end.
Proof.
  intros U language_info token. cbn. repeat split.
  - by rewrite !in_dict_merge.
  - by rewrite !in_dict_merge.
  - unfold dict_merge. rewrite lookup_union.
    destruct (_normalize_dict (DIRECT_NUMBERS language_info) !! token),
      (_normalize_dict (UNIT_NUMBERS language_info) !! token); done.
Qed.

(** ** Tokens *)

Section TokenFacts.

Context `{Unicode}.

Lemma re_split_W_chars (s token : pystr) (c : N) :
  token ∈ re_split_W s → c ∈ token → c ∈ s.
Proof.
  revert token. induction s as [|x s IH]; intros token; cbn.
  - intros ->%list_elem_of_singleton. by intros ?%elem_of_nil.
  - destruct (char_isword x).
    + destruct (re_split_W_cons s) as (word & rest & Hsplit).
      rewrite Hsplit in IH |- *.
      intros [-> | Hrest]%elem_of_cons.
      * intros [-> | Hword]%elem_of_cons; [by left|].
        right. apply (IH word); [by left|done].
      * intros Hc. right. apply (IH token); [by right|done].
    + intros [-> | [-> | Hrest]%elem_of_cons]%elem_of_cons.
      * by intros ?%elem_of_nil.
      * intros ->%list_elem_of_singleton. by left.
      * intros Hc. right. by apply (IH token).
Qed.

Lemma split_from_tokens (word s token : pystr) :
  (∀ c, c ∈ word → char_isspace c = false) →
  token ∈ split_from word s →
  token ≠ [] ∧ ∀ c, c ∈ token → (c ∈ word ∨ c ∈ s) ∧ char_isspace c = false.
Proof.
  revert word. induction s as [|x s IH]; intros word Hword; cbn.
  - case_bool_decide as Hempty; [by intros ?%elem_of_nil|].
    intros ->%list_elem_of_singleton. split; [done|]. intros c Hc. auto.
  - destruct (char_isspace x) eqn:Hx.
    + case_bool_decide as Hempty.
      * intros Htoken. destruct (IH [] (λ c Hc, False_ind _ (proj1 (elem_of_nil c) Hc))
                                   Htoken) as [Hne Hchars].
        split; [done|]. intros c Hc. destruct (Hchars c Hc) as [[Hin | Hin] Hspace].
        -- by apply elem_of_nil in Hin.
        -- split; [|done]. right. by right.
      * intros [-> | Htoken]%elem_of_cons.
        -- split; [done|]. intros c Hc. auto.
        -- destruct (IH [] (λ c Hc, False_ind _ (proj1 (elem_of_nil c) Hc))
                       Htoken) as [Hne Hchars].
           split; [done|]. intros c Hc.
           destruct (Hchars c Hc) as [[Hin | Hin] Hspace].
           ++ by apply elem_of_nil in Hin.
           ++ split; [|done]. right. by right.
    + intros Htoken.
      assert (∀ c, c ∈ word ++ [x] → char_isspace c = false) as Hword'.
      { intros c [Hc | ->%list_elem_of_singleton]%elem_of_app; auto. }
      destruct (IH (word ++ [x]) Hword' Htoken) as [Hne Hchars].
      split; [done|]. intros c Hc.
      destruct (Hchars c Hc) as [[[Hin | ->%list_elem_of_singleton]%elem_of_app | Hin]
                                 Hspace];
        split; try done; [by left | right; by left | right; by right].
Qed.

Lemma isspace_false_head (token : pystr) :
  token ≠ [] → (∀ c, c ∈ token → char_isspace c = false) → isspace token = false.
Proof.
  intros Hne Hchars. destruct token as [|c token]; [done|].
  unfold isspace. cbn [forallb]. rewrite (Hchars c) by by left.
  cbn [andb]. apply andb_false_r.
Qed.

Lemma str_replace_delete_elem (c x : N) (s : pystr) :
  x ∈ str_replace [c] [] s → x ≠ c ∧ x ∈ s.
Proof.
  rewrite str_replace_delete, list_elem_of_In, filter_In, <- list_elem_of_In.
  intros [Hin Hne]. split; [|done]. intros ->.
  by rewrite N.eqb_refl in Hne.
Qed.

End TokenFacts.

(** X7. Every token of [_tokenize] is made of characters of the input and
    holds no soft hyphen U+00AD.  For a language of [RE_BUG_LANGUAGES] no
    token is empty or whitespace; for any other language there is at least
    one token. *)
Theorem tokens_of_tokenize :
  ∀ (U : Unicode) (input_string language : pystr),
    (∀ token, token ∈ _tokenize input_string language →
       (173%N ∉ token)
       ∧ (∀ c, c ∈ token → c ∈ input_string)
       ∧ (language ∈ RE_BUG_LANGUAGES → token ≠ [] ∧ isspace token = false))
    ∧ (language ∉ RE_BUG_LANGUAGES → _tokenize input_string language ≠ []).
Proof.
  intros U input_string language. unfold _tokenize, in_list. split.
  - intros token Htoken.
    assert (∀ c, c ∈ token → c ∈ str_replace [173%N] [] input_string
                 ∧ (language ∈ RE_BUG_LANGUAGES →
                    token ≠ [] ∧ char_isspace c = false)) as Hchars.
    { intros c Hc. case_bool_decide as Hbug.
      - destruct (split_from_tokens [] _ token
                    (λ c Hc, False_ind _ (proj1 (elem_of_nil c) Hc)) Htoken)
          as [Hne Hsplit].
        destruct (Hsplit c Hc) as [[Hin | Hin] Hspace];
          [by apply elem_of_nil in Hin|done].
      - split; [|done]. by apply (re_split_W_chars _ token). }
    repeat split.
    + intros Hshy. by destruct (str_replace_delete_elem _ _ _ (proj1 (Hchars _ Hshy))).
    + intros c Hc. by destruct (str_replace_delete_elem _ _ _ (proj1 (Hchars _ Hc))).
    + case_bool_decide as Hbug'; [|done].
      by destruct (split_from_tokens [] _ token
                     (λ c Hc, False_ind _ (proj1 (elem_of_nil c) Hc)) Htoken).
    + apply isspace_false_head.
      * case_bool_decide as Hbug'; [|done].
        by destruct (split_from_tokens [] _ token
                       (λ c Hc, False_ind _ (proj1 (elem_of_nil c) Hc)) Htoken).
      * intros c Hc. by apply (Hchars c Hc).
  - intros Hbug. rewrite bool_decide_eq_false_2 by done.
    by destruct (re_split_W_cons (str_replace [173%N] [] input_string))
      as (first & rest & ->).
Qed.

Lemma tokens_of_tokenize_witness :
  py "two" ∈ _tokenize (H := BasicLatin.tables) (py " two  " ++ [173%N]) (py "hi")
  ∧ (173%N ∉ py "two")
  ∧ isspace (H := BasicLatin.tables) (py "two") = false.
Proof.
  assert (py "two" ∈ _tokenize (H := BasicLatin.tables) (py " two  " ++ [173%N])
                       (py "hi")) as Htoken.
  { apply (bool_decide_unpack _). vm_compute. exact I. }
  assert (py "hi" ∈ RE_BUG_LANGUAGES) as Hbug.
  { apply (bool_decide_unpack _). vm_compute. exact I. }
  pose proof (proj1 (tokens_of_tokenize BasicLatin.tables (py " two  " ++ [173%N])
                       (py "hi")) (py "two") Htoken) as (Hshy & _ & Hwords).
  split; [exact Htoken|]. split; [exact Hshy|]. exact (proj2 (Hwords Hbug)).
Defined.

(** ** The scanner *)

Section ScannerFacts.

Context `{Unicode} (data : pystr → option language_info).
Implicit Types (sc : scanner) (token language : pystr).

Lemma new_LanguageData_no_IndexError language :
  new_LanguageData data language ≠ Raise IndexError.
Proof.
  unfold new_LanguageData. destruct (negb _); [done|]. by destruct (data language).
Qed.

Lemma parse_number_no_IndexError (s : pystr) language :
  parse_number data s language ≠ Raise IndexError.
Proof.
  unfold parse_number.
  pose proof (new_LanguageData_no_IndexError language) as Hlang.
  destruct (new_LanguageData data language) as [lang_data|e]; cbn; [|congruence].
  destruct (isnumeric s); [by destruct (py_int s)|].
  destruct (negb _); [done|].
  destruct (_build_number _ _) as [|segment [|]]; try done.
  by destruct (py_int segment).
Qed.

Lemma parse_number_tokens_no_IndexError (run : list pystr) language :
  _parse_number_tokens data run language ≠ Raise IndexError.
Proof.
  unfold _parse_number_tokens.
  pose proof (parse_number_no_IndexError (run_text run) language) as Hcardinal.
  destruct (parse_number data (run_text run) language) as [cardinal|e]; cbn;
    [|congruence].
  destruct (negb (truthy cardinal)); cbn; [|done].
  pose proof (parse_number_no_IndexError
                (_apply_cardinal_conversion (run_text run) (py "en")) (py "en"))
    as Hordinal.
  unfold parse_ordinal.
  destruct (parse_number data _ (py "en")) as [ordinal|e]; cbn; [done|congruence].
Qed.

Lemma is_number_token_no_IndexError token language :
  is_number_token data token language ≠ Raise IndexError.
Proof.
  unfold is_number_token, _is_ordinal_token, _is_cardinal_token.
  pose proof (new_LanguageData_no_IndexError language) as Hlang.
  destruct (new_LanguageData data language) as [lang_data|e]; cbn; [|congruence].
  by destruct (in_dict token (all_numbers lang_data)).
Qed.

Lemma is_skip_token_no_IndexError token language :
  _is_skip_token data token language ≠ Raise IndexError.
Proof.
  unfold _is_skip_token.
  pose proof (new_LanguageData_no_IndexError language) as Hlang.
  destruct (new_LanguageData data language) as [lang_data|e]; cbn; [done|congruence].
Qed.

(** A turn of the loop keeps a token in every open run, and never reads the
    last token of an empty one. *)
Lemma parse_step_run_is_open language sc token :
  run_is_open sc →
  match parse_step data language sc token with
  | Ok sc' => run_is_open sc'
  | Raise e => e ≠ IndexError
  end.
Proof.
  intros Hopen. unfold parse_step.
  pose proof (is_number_token_no_IndexError (_strip_accents (str_lower token))
                language) as Hnumeral.
  destruct (is_number_token data _ language) as [is_number|e]; cbn; [|congruence].
  destruct (building_number sc) eqn:Hbuilding; cbn.
  - pose proof (is_skip_token_no_IndexError token language) as Hskip.
    destruct (is_number || isspace token || bool_decide (token = [])); cbn.
    { intros _. cbn. by destruct (current_number sc). }
    destruct (_is_skip_token data token language) as [extends|e]; cbn; [|congruence].
    destruct extends.
    { intros _. cbn. by destruct (current_number sc). }
    pose proof (parse_number_tokens_no_IndexError (current_number sc) language)
      as Hnumber.
    destruct (_parse_number_tokens data (current_number sc) language) as [number|e];
      cbn; [|congruence].
    destruct (last (current_number sc)) as [final|] eqn:Hlast; [by intros ?|].
    apply last_None in Hlast. by destruct (Hopen Hbuilding).
  - destruct is_number; intros Hb; cbn in *; [|done].
    by destruct (current_number sc).
Qed.

Lemma scan_run_is_open language sc (tokens : list pystr) :
  run_is_open sc →
  match scan data language sc tokens with
  | Ok sc' => run_is_open sc'
  | Raise e => e ≠ IndexError
  end.
Proof.
  revert sc. induction tokens as [|token tokens IH]; intros sc Hopen; cbn; [done|].
  pose proof (parse_step_run_is_open language sc token Hopen) as Hstep.
  destruct (parse_step data language sc token) as [sc'|e]; cbn; [|done].
  by apply IH.
Qed.

(** The pieces written to the sentence are never taken back. *)
Lemma parse_step_keeps_sentence language sc sc' token :
  parse_step data language sc token = Ok sc' →
  sentence sc `prefix_of` sentence sc'.
Proof.
  unfold parse_step.
  destruct (is_number_token data _ language) as [is_number|e]; cbn; [|done].
  destruct (negb (building_number sc)).
  - destruct is_number; intros [= <-]; cbn; [done|by apply prefix_app_r].
  - destruct (is_number || isspace token || bool_decide (token = [])); cbn.
    { by intros [= <-]. }
    destruct (_is_skip_token data token language) as [extends|e]; cbn; [|done].
    destruct extends; [by intros [= <-]|].
    destruct (_parse_number_tokens data (current_number sc) language) as [number|e];
      cbn; [|done].
    destruct (last (current_number sc)) as [final|]; [|done].
    intros [= <-]; cbn. destruct (isspace final).
    + rewrite <- !app_assoc. by apply prefix_app_r.
    + rewrite <- !app_assoc. by apply prefix_app_r.
Qed.

Lemma scan_keeps_sentence language sc sc' (tokens : list pystr) :
  scan data language sc tokens = Ok sc' →
  sentence sc `prefix_of` sentence sc'.
Proof.
  revert sc. induction tokens as [|token tokens IH]; intros sc; cbn.
  - by intros [= <-].
  - destruct (parse_step data language sc token) as [sc1|e] eqn:Hstep; cbn; [|done].
    intros Hscan. etrans; [by apply (parse_step_keeps_sentence language sc sc1 token)|].
    by apply IH.
Qed.

Lemma scan_app language sc (tokens1 tokens2 : list pystr) :
  scan data language sc (tokens1 ++ tokens2)
  = scan data language sc tokens1 ≫= λ sc', scan data language sc' tokens2.
Proof.
  revert sc. induction tokens1 as [|token tokens1 IH]; intros sc; cbn; [done|].
  destruct (parse_step data language sc token) as [sc1|e]; cbn; [apply IH|done].
Qed.

Lemma join_prefix (pieces1 pieces2 : list pystr) :
  pieces1 `prefix_of` pieces2 → join pieces1 `prefix_of` join pieces2.
Proof.
  intros [rest ->]. unfold join. rewrite concat_app. by apply prefix_app_r.
Qed.

End ScannerFacts.

(** X8. [parse] never raises [IndexError]: whenever the scanner is inside a
    run its buffer holds a token, so [current_number[-1]] at line 253 is
    always there. *)
Theorem parse_never_raises_IndexError :
  ∀ (U : Unicode) (data : pystr → option language_info)
    (input_string language : pystr),
    parse data input_string language ≠ Raise IndexError.
Proof.
  intros U data input_string language. unfold parse.
  pose proof (scan_run_is_open data language scanner_start
                (_tokenize input_string language)) as Hscan.
  destruct (scan data language scanner_start _) as [sc|e]; cbn.
  - unfold parse_finish. destruct (building_number sc); [|done].
    pose proof (parse_number_tokens_no_IndexError data (current_number sc) language).
    by destruct (_parse_number_tokens data (current_number sc) language).
  - intros [= ->]. by apply Hscan.
Qed.

(** X9. A run whose cardinal reading is a number other than 0 is replaced
    by the digits of that number, and the ordinal reader is not consulted.
    At a boundary token the scanner writes the digits, then the run's last
    token again when it is whitespace, then the boundary token, and leaves
    the run. *)
Theorem resolved_run_is_replaced_by_digits :
  ∀ (U : Unicode) (data : pystr → option language_info) (language : pystr)
    (sc : scanner) (token final : pystr) (n : Z),
    building_number sc = true →
    last (current_number sc) = Some final →
    parse_number data (run_text (current_number sc)) language = Ok (Some n) →
    n ≠ 0 →
    is_number_token data (_strip_accents (str_lower token)) language = Ok false →
    isspace token = false →
    token ≠ [] →
    _is_skip_token data token language = Ok false →
    _parse_number_tokens data (current_number sc) language = Ok (py_str n)
    ∧ parse_step data language sc token =
        Ok {| sentence :=
                (if isspace final then (sentence sc ++ [py_str n]) ++ [final]
                 else sentence sc ++ [py_str n]) ++ [token];
              current_number := [];
              building_number := false |}.
Proof.
  intros U data language sc token final n Hbuilding Hlast Hcardinal Hn
    Hnumeral Hws Hempty Hskip.
  assert (_parse_number_tokens data (current_number sc) language = Ok (py_str n))
    as Hdigits.
  { unfold _parse_number_tokens. rewrite Hcardinal. cbn.
    destruct (Z.eqb_spec n 0) as [|_]; [done|]. cbn.
    unfold number_or_text, truthy. by destruct (Z.eqb_spec n 0). }
  split; [done|]. by apply parse_step_boundary.
Qed.

Lemma resolved_run_is_replaced_by_digits_witness :
  parse_number (H := BasicLatin.tables) en_data
    (run_text (H := BasicLatin.tables) (current_number reading_twenty_three))
    (py "en") = Ok (Some 23)
  ∧ parse_step (H := BasicLatin.tables) en_data (py "en") reading_twenty_three
      (py "apples")
    = Ok {| sentence := [py "I"; py " "; py "23"; py " "; py "apples"];
            current_number := [];
            building_number := false |}.
Proof.
  assert (parse_number (H := BasicLatin.tables) en_data
            (run_text (H := BasicLatin.tables) (current_number reading_twenty_three))
            (py "en") = Ok (Some 23)) as Hcardinal by (vm_compute; reflexivity).
  split; [exact Hcardinal|].
  refine (eq_trans
            (proj2 (resolved_run_is_replaced_by_digits BasicLatin.tables en_data
                      (py "en") reading_twenty_three (py "apples") (py " ") 23
                      eq_refl eq_refl Hcardinal _ _ _ _ _)) _);
    try (vm_compute; reflexivity); discriminate.
Defined.

(** X10. The tokens that stand before the first numeral token are copied
    to the output as they are: when [parse] returns, its result begins with
    their concatenation. *)
Theorem text_before_first_numeral_is_kept :
  ∀ (U : Unicode) (data : pystr → option language_info)
    (input_string language : pystr) (before rest : list pystr) (output : pystr),
    _tokenize input_string language = before ++ rest →
    (∀ token, token ∈ before →
       is_number_token data (_strip_accents (str_lower token)) language = Ok false) →
    parse data input_string language = Ok output →
    join before `prefix_of` output.
Proof.
  intros U data input_string language before rest output Htokens Hnone.
  unfold parse. rewrite Htokens, scan_app.
  change scanner_start with (idle_with []).
  rewrite (scan_no_numeral data language before [] Hnone). cbn.
  destruct (scan data language (idle_with before) rest) as [sc|e] eqn:Hscan;
    cbn; [|done].
  apply scan_keeps_sentence in Hscan. cbn in Hscan.
  unfold parse_finish. destruct (building_number sc).
  - destruct (_parse_number_tokens data (current_number sc) language) as [number|e];
      cbn; [|done].
    intros [= <-]. apply join_prefix. by apply prefix_app_r.
  - intros [= <-]. by apply join_prefix.
Qed.

Lemma text_before_first_numeral_is_kept_witness :
  en_parse "I have twenty" = Ok (py "I have 20")
  ∧ py "I have " `prefix_of` py "I have 20".
Proof.
  assert (en_parse "I have twenty" = Ok (py "I have 20")) as Hparse
    by (vm_compute; reflexivity).
  split; [exact Hparse|].
  refine (text_before_first_numeral_is_kept BasicLatin.tables en_data
            (py "I have twenty") (py "en") [py "I"; py " "; py "have"; py " "]
            [py "twenty"] (py "I have 20") _ _ Hparse).
  - vm_compute. reflexivity.
  - intros token Htoken.
    repeat (apply elem_of_cons in Htoken as [-> | Htoken]; [vm_compute; reflexivity|]).
    by apply elem_of_nil in Htoken.
Defined.

(** ** Blank texts over Basic Latin *)

Lemma digit_not_space (c : N) : BasicLatin.digit c = true → BasicLatin.space c = false.
Proof.
  unfold BasicLatin.digit, BasicLatin.space, BasicLatin.between.
  rewrite andb_true_iff, !N.leb_le. intros [Hlo Hhi].
  rewrite orb_false_iff, !andb_false_iff, !N.leb_gt. lia.
Qed.

Section BlankTokens.

Context `{Unicode}.

Lemma foldl_build_step_blank (lang_data : LanguageData) (b : builder)
    (tokens : list pystr) :
  Forall (λ token, is_blank token = true) tokens →
  foldl (build_step lang_data) b tokens = b.
Proof.
  induction 1 as [|token tokens Hblank _ IH]; cbn; [done|].
  by rewrite build_step_blank.
Qed.

Lemma tokens_accepted_blank (lang_data : LanguageData) (index : nat)
    (tokens : list pystr) :
  Forall (λ token, is_blank token = true) tokens →
  tokens_accepted lang_data index tokens = true.
Proof.
  intros Hblank. revert index.
  induction Hblank as [|token tokens Hblank _ IH]; intros index; cbn; [done|].
  assert (isspace token || (length token =? 0)%nat = true) as Hlet.
  { unfold is_blank in Hblank. destruct (isspace token); [done|].
    cbn in Hblank. apply bool_decide_eq_true in Hblank. by subst. }
  rewrite <- orb_assoc, Hlet, orb_true_r. apply IH.
Qed.

End BlankTokens.

Lemma space_not_word (c : N) : BasicLatin.space c = true → BasicLatin.word c = false.
Proof.
  unfold BasicLatin.space, BasicLatin.word, BasicLatin.digit, BasicLatin.between.
  rewrite orb_true_iff, !andb_true_iff, !N.leb_le. intros Hspace.
  rewrite !orb_false_iff, !andb_false_iff, !N.leb_gt, N.eqb_neq. lia.
Qed.

Lemma space_not_digit (c : N) : BasicLatin.space c = true → BasicLatin.digit c = false.
Proof.
  intros Hspace. destruct (BasicLatin.digit c) eqn:Hdigit; [|done].
  apply digit_not_space in Hdigit. congruence.
Qed.

Lemma space_lower (c : N) : BasicLatin.space c = true → BasicLatin.lower c = c.
Proof.
  unfold BasicLatin.space, BasicLatin.lower, BasicLatin.between.
  rewrite orb_true_iff, !andb_true_iff, !N.leb_le. intros Hspace.
  destruct (_ && _) eqn:Hupper; [|done].
  apply andb_true_iff in Hupper. rewrite !N.leb_le in Hupper. lia.
Qed.

(** Over Basic Latin the normal form of a token is the token in lower case. *)
Lemma basic_latin_normal_form (token : pystr) :
  _strip_accents (H := BasicLatin.tables) (str_lower (Unicode := BasicLatin.tables) token)
  = map BasicLatin.lower token.
Proof.
  unfold _strip_accents. cbn. induction (map BasicLatin.lower token) as [|c l IH];
    cbn; [done|]. by rewrite IH.
Qed.

Lemma blank_tokens_of_spaces (s : pystr) :
  forallb BasicLatin.space s = true →
  Forall (λ token, is_blank (H := BasicLatin.tables) token = true)
    (_normalize_tokens (H := BasicLatin.tables) (re_split_W (H := BasicLatin.tables) s)).
Proof.
  unfold _normalize_tokens. induction s as [|c s IH]; cbn [forallb].
  - intros _. cbn [re_split_W map]. constructor; [|constructor].
    by rewrite basic_latin_normal_form.
  - intros [Hc Hs]%andb_true_iff. cbn [re_split_W char_isword BasicLatin.tables].
    rewrite (space_not_word c Hc). cbn [map].
    constructor; [by rewrite basic_latin_normal_form|].
    constructor; [|by apply IH].
    rewrite basic_latin_normal_form. cbn [map]. rewrite (space_lower c Hc).
    unfold is_blank, isspace. cbn. by rewrite Hc.
Qed.

Lemma str_split_of_spaces (s : pystr) :
  forallb BasicLatin.space s = true → str_split (H := BasicLatin.tables) s = [].
Proof.
  unfold str_split. induction s as [|c s IH]; cbn; [done|].
  intros [Hc Hs]%andb_true_iff. rewrite Hc. cbn. by apply IH.
Qed.

(** X12. With the tables of Basic Latin, a text of whitespace only, the
    empty text included, is not rejected by [parse_number]: the accumulator
    runs on tokens it passes over and the result is 0, for every supported
    language whose data module is there. *)
Theorem blank_text_parses_to_zero :
  ∀ (data : pystr → option language_info) (language : pystr)
    (language_info : language_info) (input_string : pystr),
    language ∈ SUPPORTED_LANGUAGES →
    data language = Some language_info →
    forallb BasicLatin.space input_string = true →
    parse_number (H := BasicLatin.tables) data input_string language = Ok (Some 0).
Proof.
  intros data language language_info input_string Hsupported Hdata Hspaces.
  unfold parse_number, new_LanguageData, in_list.
  rewrite bool_decide_eq_true_2 by done. rewrite Hdata. cbn [negb mbind result_bind].
  assert (isnumeric (H := BasicLatin.tables) input_string = false) as ->.
  { unfold isnumeric. destruct input_string as [|c s]; [done|].
    cbn in Hspaces |- *. apply andb_true_iff in Hspaces as [Hc _].
    by rewrite (space_not_digit c Hc). }
  assert (Forall (λ token, is_blank (H := BasicLatin.tables) token = true)
            (_normalize_tokens (H := BasicLatin.tables)
               (_tokenize (H := BasicLatin.tables) input_string language)))
    as Hblank.
  { unfold _tokenize. rewrite str_replace_absent.
    - destruct (in_list language RE_BUG_LANGUAGES).
      + rewrite str_split_of_spaces by done. constructor.
      + by apply blank_tokens_of_spaces.
    - intros Hshy%list_elem_of_In.
      by pose proof (proj1 (forallb_forall _ _) Hspaces _ Hshy). }
  rewrite tokens_accepted_blank by done. cbn [negb].
  unfold _build_number. rewrite foldl_build_step_blank by done.
  by vm_compute.
Qed.

Lemma blank_text_parses_to_zero_witness :
  py "en" ∈ SUPPORTED_LANGUAGES
  ∧ en_parse_number "" = Ok (Some 0)
  ∧ en_parse_number "  " = Ok (Some 0).
Proof.
  assert (py "en" ∈ SUPPORTED_LANGUAGES) as Hsupported.
  { apply (bool_decide_unpack _). vm_compute. exact I. }
  split; [exact Hsupported|]. split.
  - exact (blank_text_parses_to_zero en_data (py "en") en_info (py "")
             Hsupported eq_refl eq_refl).
  - exact (blank_text_parses_to_zero en_data (py "en") en_info (py "  ")
             Hsupported eq_refl eq_refl).
Defined.

(** ** Skip words and the other boundaries *)

Section SkipWords.

Context `{Unicode}.
Implicit Types (lang_data : LanguageData) (b : builder) (token : pystr).

(** The fields agree by computation, the lists are empty together by [Hlist]. *)
Ltac agree_by Hlist := repeat split; cbn; solve [done | apply Hlist].

Lemma accumulate_same_progress lang_data b1 b2 token :
  same_progress b1 b2 →
  same_progress (accumulate lang_data b1 token) (accumulate lang_data b2 token).
Proof.
  intros (Htotal & Hgrp & Hprev & Hpower & Hlist). unfold accumulate.
  rewrite Htotal, Hgrp, Hprev, Hpower.
  destruct (in_dict token (unit_and_direct_numbers lang_data));
    [agree_by Hlist|].
  destruct (in_dict token (tens lang_data)); [agree_by Hlist|].
  destruct (in_dict token (hundreds lang_data)); [agree_by Hlist|].
  destruct (in_dict token (big_powers_of_ten lang_data)); [|agree_by Hlist].
  destruct (_ >? _); agree_by Hlist.
Qed.

Lemma close_number_same_progress b1 b2 :
  same_progress b1 b2 → same_progress (close_number b1) (close_number b2).
Proof.
  intros (Htotal & Hgrp & Hprev & Hpower & Hlist). unfold close_number.
  repeat split; cbn; try done.
  - intros Hnil. apply app_eq_nil in Hnil as [Hnil _].
    by apply app_eq_nil in Hnil as [_ ?].
  - intros Hnil. apply app_eq_nil in Hnil as [Hnil _].
    by apply app_eq_nil in Hnil as [_ ?].
Qed.

Lemma build_step_same_progress lang_data b1 b2 token :
  same_progress b1 b2 →
  same_progress (build_step lang_data b1 token) (build_step lang_data b2 token).
Proof.
  intros Hsame. pose proof Hsame as (Htotal & Hgrp & Hprev & Hpower & Hlist).
  unfold build_step. rewrite Htotal, Hgrp, Hprev, Hpower.
  destruct (isspace token || bool_decide (token = [])); [done|].
  destruct (in_list token (skip_tokens lang_data)); [agree_by Hlist|].
  destruct (_check_large_multiplier _ _ _ _).
  { unfold large_multiplier_step. rewrite Htotal, Hgrp. agree_by Hlist. }
  destruct (_check_validity _ _ _ _ _ _); cbn [negb].
  - by apply accumulate_same_progress.
  - by apply accumulate_same_progress, close_number_same_progress.
Qed.

Lemma foldl_build_step_same_progress lang_data b1 b2 (tokens : list pystr) :
  same_progress b1 b2 →
  same_progress (foldl (build_step lang_data) b1 tokens)
    (foldl (build_step lang_data) b2 tokens).
Proof.
  revert b1 b2. induction tokens as [|token tokens IH]; intros b1 b2 Hsame; cbn;
    [done|].
  by apply IH, build_step_same_progress.
Qed.

Lemma build_step_skip_word lang_data b token :
  in_list token (skip_tokens lang_data) = true →
  same_progress (build_step lang_data b token) b.
Proof.
  intros Hskip. unfold build_step.
  destruct (isspace token || bool_decide (token = [])); [by repeat split|].
  rewrite Hskip. by repeat split.
Qed.

End SkipWords.

(** X13. A skip word put anywhere among the tokens of [_build_number] has
    no effect on a result of one segment: the tokens give the single segment
    [segment] with the skip word exactly when they give it without. *)
Theorem skip_word_is_transparent :
  ∀ (U : Unicode) (lang_data : LanguageData) (before after : list pystr)
    (skip_word segment : pystr),
    in_list skip_word (skip_tokens lang_data) = true →
    _build_number (before ++ skip_word :: after) lang_data = [segment]
    ↔ _build_number (before ++ after) lang_data = [segment].
Proof.
  intros U lang_data before after skip_word segment Hskip.
  unfold _build_number. rewrite !foldl_app. cbn [foldl].
  pose proof (foldl_build_step_same_progress lang_data _ _ after
                (build_step_skip_word lang_data
                   (foldl (build_step lang_data) builder_start before)
                   skip_word Hskip)) as (Htotal & Hgrp & _ & _ & Hlist).
  rewrite Htotal, Hgrp.
  split; intros Hone.
  - destruct (value_list (foldl (build_step lang_data) (build_step lang_data _ _)
                            after)) as [|first segments] eqn:Hwith.
    + by rewrite (proj1 Hlist eq_refl).
    + apply (f_equal length) in Hone. rewrite length_app in Hone. cbn in Hone. lia.
  - destruct (value_list (foldl (build_step lang_data)
                            (foldl (build_step lang_data) builder_start before)
                            after)) as [|first segments] eqn:Hwithout.
    + by rewrite (proj2 Hlist eq_refl).
    + apply (f_equal length) in Hone. rewrite length_app in Hone. cbn in Hone. lia.
Qed.

Lemma skip_word_is_transparent_witness :
  in_list (py "and") (skip_tokens en_lang_data) = true
  ∧ _build_number (H := BasicLatin.tables)
      ([py "one"; py "hundred"] ++ py "and" :: [py "twenty"]) en_lang_data
    = [py "120"].
Proof.
  assert (in_list (py "and") (skip_tokens en_lang_data) = true) as Hskip
    by (vm_compute; reflexivity).
  split; [exact Hskip|].
  apply (proj2 (skip_word_is_transparent BasicLatin.tables en_lang_data
                  [py "one"; py "hundred"] [py "twenty"] (py "and") (py "120") Hskip)).
  vm_compute. reflexivity.
Defined.

(** X14. In [_build_number], a unit or direct word examined right after a
    unit or direct word, and a direct word examined right after a ten word,
    make a boundary: the number built so far is closed and appended, followed
    by the pending skip words, and a new number begins with the word. *)
Theorem unit_after_numeral_boundary :
  ∀ (U : Unicode) (lang_data : LanguageData) (b : builder)
    (token previous : pystr) (unit : Z),
    passed_over lang_data token = false →
    unit_and_direct_numbers lang_data !! token = Some unit →
    big_powers_of_ten lang_data !! token = None →
    previous_token b = Some previous →
    in_dict previous (unit_and_direct_numbers lang_data) = true
    ∨ (in_dict token (direct_numbers lang_data) = true
       ∧ in_dict previous (tens lang_data) = true) →
    build_step lang_data b token =
      {| total_value := 0;
         current_grp_value := unit;
         previous_token := Some token;
         previous_power_of_10 := None;
         value_list :=
           (value_list b ++ [py_str (total_value b + current_grp_value b)])
           ++ used_skip_tokens b;
         used_skip_tokens := [] |}.
Proof.
  intros U lang_data b token previous unit Hexamined Hunit Hpower Hprev Hwhich.
  destruct (in_dict_Some _ _ _ Hunit) as [Hin Hget].
  rewrite build_step_examined by done.
  rewrite check_large_multiplier_not_power by done.
  assert (_check_validity token (previous_token b) (previous_power_of_10 b)
            (total_value b) (current_grp_value b) lang_data = false) as ->.
  { rewrite Hprev. unfold _check_validity. cbn [opt_in_dict]. rewrite Hin.
    destruct Hwhich as [-> | [-> ->]]; [done|].
    by destruct (in_dict previous (unit_and_direct_numbers lang_data)). }
  unfold accumulate. rewrite Hin, Hget. cbn. by rewrite Z.add_0_l.
Qed.

Lemma unit_after_numeral_boundary_witness :
  unit_and_direct_numbers en_lang_data !! py "ten" = Some 10
  ∧ build_step (H := BasicLatin.tables) en_lang_data twenty_two (py "ten") =
      {| total_value := 0; current_grp_value := 10;
         previous_token := Some (py "ten"); previous_power_of_10 := None;
         value_list := [py "22"]; used_skip_tokens := [] |}.
Proof.
  assert (unit_and_direct_numbers en_lang_data !! py "ten" = Some 10) as Hunit
    by (vm_compute; reflexivity).
  split; [exact Hunit|].
  refine (unit_after_numeral_boundary BasicLatin.tables en_lang_data twenty_two
            (py "ten") (py "two") 10 _ Hunit _ _ (or_introl _));
    vm_compute; reflexivity.
Defined.
